(** * ComfyUI-MimicMotionWrapper: the three nodes of [nodes.py]

    A shallow embedding of [DownloadAndLoadMimicMotionModel.loadmodel],
    [MimicMotionSampler.process] and [MimicMotionGetPoses.process].

    Conventions of the embedding.
    - A float value is read as the rational it is ([Q]).  The arithmetic that
      nodes.py writes out itself (a product, a quotient, a mean) is read
      without its rounding.  A float operation that leaves the rationals
      (numpy's division by [0.0], which yields inf or nan under a
      RuntimeWarning and no exception) ends the modelled run with [NonFinite].
    - The line that [np.polyfit] returns is computed by LAPACK in float64; its
      two coefficients are left open: they are the [Variable] [lstsq_line] of
      the extractor, and the theorems hold whatever they are.  [lstsq_rcond]
      reads numpy's algorithm, with its rank cut-off, in exact arithmetic; it
      is used where a run is evaluated on concrete data.
    - A Python exception ends the run with [Err e]; [e] records the exception
      class, its message and where it was raised.
    - Image tensors (torch / numpy arrays of pixels) are a shape and an indexing
      function; keypoint arrays ([K,2], [P,K], ...) are lists, the first axis
      being the list.
    - The keypoint detector, the skeleton renderer, the least-squares solver,
      the diffusion pipeline and the checkpoint download are external to the
      repository: they are [Variable]s of the sections below. *)

From Stdlib Require Import String Bool Arith ZArith QArith Qfield Lia Lqa List.
From Stdlib Require Import Permutation.
Import ListNotations.
Open Scope Q_scope.

(** ** Outcomes of a run *)

Inductive raiser : Type :=
| InNode                    (* a [raise] statement of nodes.py *)
| InPython                  (* the interpreter, on an operator or an unpacking *)
| InNumPy (fn : string)     (* inside a numpy function *)
| InTorch (fn : string).    (* inside a torch function *)

Record exn : Type := Exn {
  exn_from  : raiser;
  exn_class : string;
  exn_msg   : string
}.

Inductive result (A : Type) : Type :=
| Ok (a : A)
| Err (e : exn)
| NonFinite.

Arguments Ok {A} a.
Arguments Err {A} e.
Arguments NonFinite {A}.

Definition bind {A B : Type} (m : result A) (k : A -> result B) : result B :=
  match m with
  | Ok a => k a
  | Err e => Err e
  | NonFinite => NonFinite
  end.

Notation "x <- m ;; k" := (bind m (fun x => k))
  (at level 61, m at next level, right associativity).
Notation "' p <- m ;; k" := (bind m (fun p => k))
  (at level 61, p pattern, m at next level, right associativity).

Definition fmap {A B : Type} (f : A -> B) (m : result A) : result B :=
  x <- m ;; Ok (f x).

Fixpoint mapM {A B : Type} (f : A -> result B) (l : list A) : result (list B) :=
  match l with
  | [] => Ok []
  | x :: xs => y <- f x ;; ys <- mapM f xs ;; Ok (y :: ys)
  end.

(** A list comprehension [[x for x in l if c(x)]] whose condition can raise. *)
Fixpoint filterM {A : Type} (c : A -> result bool) (l : list A) : result (list A) :=
  match l with
  | [] => Ok []
  | x :: xs =>
      b <- c x ;; ys <- filterM c xs ;; Ok (if (b : bool) then x :: ys else ys)
  end.

(** ** Python and numpy arithmetic *)

Definition of_int (n : nat) : Q := inject_Z (Z.of_nat n).

Definition Qlt_bool (x y : Q) : bool := negb (Qle_bool y x).

(** [a / b] on Python numbers. *)
Definition py_truediv (a b : Q) : result Q :=
  if Qeq_bool b 0
  then Err (Exn InPython "ZeroDivisionError" "division by zero")
  else Ok (a / b).

(** [a / b] where [a] is a numpy float64 scalar. *)
Definition np_truediv (a b : Q) : result Q :=
  if Qeq_bool b 0 then NonFinite else Ok (a / b).

Definition Qsum (l : list Q) : Q := fold_right Qplus 0 l.

(** Element-wise operations on 1-D arrays of one length. *)
Fixpoint map2 (f : Q -> Q -> Q) (u v : list Q) : list Q :=
  match u, v with
  | x :: u', y :: v' => f x y :: map2 f u' v'
  | _, _ => []
  end.

Definition np_mean (v : list Q) : Q := Qsum v / of_int (length v).

(** [np.tile(v, reps)] on a 1-D array. *)
Fixpoint np_tile (v : list Q) (reps : nat) : list Q :=
  match reps with
  | O => []
  | S r => v ++ np_tile v r
  end.

(** [a[idx]] with a list of integers: rows of the first axis, IndexError when
    an index is out of bounds. *)
Definition np_take {A : Type} (a : list A) (idx : list nat) : result (list A) :=
  mapM (fun i =>
          match nth_error a i with
          | Some x => Ok x
          | None => Err (Exn (InNumPy "__getitem__") "IndexError" "index out of bounds")
          end) idx.

(** [np.stack(arrays)] on arrays of shape [K,2]: the list must not be empty and
    the arrays must have one shape. *)
Definition np_stack {A : Type} (arrays : list (list A)) : result (list (list A)) :=
  match arrays with
  | [] => Err (Exn (InNumPy "stack") "ValueError" "need at least one array to stack")
  | a0 :: rest =>
      if forallb (fun a => (length a =? length a0)%nat) rest
      then Ok arrays
      else Err (Exn (InNumPy "stack") "ValueError"
                    "all input arrays must have the same shape")
  end.

(** [np.polyfit(x, y, 1)]: the line fitted by least squares to the points
    [(x_i, y_i)], highest power first.  numpy checks its arguments, scales the
    columns [x] and [1] of the Vandermonde matrix to unit length and hands the
    system to [lstsq] (LAPACK, in float64) with [rcond = len(x) * eps]:
    - an empty [x], and a [y] of another length, are refused;
    - when all [x_i] are [0] the scaling divides [0] by [0] and [lstsq] is
      handed nan, which it refuses;
    - otherwise the call returns the two float64 coefficients that [lstsq]
      has computed.  They are not determined here: [lstsq_line x y] stands
      for them. *)
Definition np_polyfit1 (lstsq_line : list Q -> list Q -> Q * Q) (x y : list Q)
    : result (Q * Q) :=
  if (length x =? 0)%nat then
    Err (Exn (InNumPy "polyfit") "TypeError" "expected non-empty vector for x")
  else if negb (length x =? length y)%nat then
    Err (Exn (InNumPy "polyfit") "TypeError" "expected x and y to have same length")
  else if Qeq_bool (Qsum (map2 Qmult x x)) 0 then
    Err (Exn (InNumPy "linalg.lstsq") "LinAlgError"
             "SVD did not converge in Linear Least Squares")
  else Ok (lstsq_line x y).

(** The relative precision of float64, [np.finfo(np.float64).eps = 2^-52]. *)
Definition float64_eps : Q := 1 # 4503599627370496.

(** What [lstsq] computes for [np.polyfit(x, y, 1)], read in exact
    arithmetic.  With [c] the cosine of the angle between the columns [x] and
    [1] ([c^2 = sx^2 / (n sxx)]), the singular values of the scaled matrix are
    [sqrt (1 + |c|)] and [sqrt (1 - |c|)].  [lstsq] treats the smaller one as
    zero when it is at most [rcond] times the larger one, that is when
    [c^2 >= ((1 - rcond^2) / (1 + rcond^2))^2].
    - When it does, the matrix counts as of rank 1 and the answer is the
      minimum-norm solution on the larger singular value,
      [(sxy / sxx + |c| sy / sx, |c| sxy / sx + sy / n) / (2 (1 + |c|))],
      in which [|c|], within [2 rcond^2] of 1, is read as 1 (numpy issues a
      RankWarning).
    - When it does not, the matrix has rank 2 and the answer solves the
      normal equations: it is the least-squares line.
    The float64 coefficients of numpy are this answer up to the rounding of
    LAPACK. *)
Definition lstsq_rcond (x y : list Q) : Q * Q :=
  let n := of_int (length x) in
  let sx := Qsum x in
  let sy := Qsum y in
  let sxx := Qsum (map2 Qmult x x) in
  let sxy := Qsum (map2 Qmult x y) in
  let rcond := n * float64_eps in
  let lo := (1 - rcond * rcond) * (1 - rcond * rcond) in
  let hi := (1 + rcond * rcond) * (1 + rcond * rcond) in
  if Qle_bool (n * sxx * lo) (sx * sx * hi) then
    ((sxy / sxx + sy / sx) / 4, (sxy / sx + sy / n) / 4)
  else
    let a := (n * sxy - sx * sy) / (n * sxx - sx * sx) in
    (a, (sy - a * sx) / n).

(** ** Image tensors *)

Record tensor : Type := Tensor {
  shape : list nat;
  at_ : list nat -> Q
}.

Definition t_map (f : Q -> Q) (t : tensor) : tensor :=
  Tensor (shape t) (fun idx => f (at_ t idx)).

(** Position of axis [d] in the permutation [perm]. *)
Fixpoint axis_pos (d : nat) (perm : list nat) : nat :=
  match perm with
  | [] => O
  | p :: ps => if (p =? d)%nat then O else S (axis_pos d ps)
  end.

(** [t.permute(perm)] for a constant permutation [perm] of [0..len(perm)-1]:
    axis [j] of the result is axis [perm[j]] of [t]. *)
Definition permute (perm : list nat) (t : tensor) : result tensor :=
  if (length (shape t) =? length perm)%nat then
    Ok (Tensor (map (fun d => nth d (shape t) O) perm)
               (fun idx => at_ t (map (fun d => nth (axis_pos d perm) idx O)
                                      (seq 0 (length perm)))))
  else
    Err (Exn (InTorch "permute") "RuntimeError"
             "number of dimensions in the tensor input does not match the length of the desired ordering")
.

(** [t.squeeze(0)]: drops the first axis when its size is 1, else [t]. *)
Definition squeeze0 (t : tensor) : tensor :=
  match shape t with
  | 1%nat :: s => Tensor s (fun idx => at_ t (O :: idx))
  | _ => t
  end.

Definition unsqueeze0 (t : tensor) : tensor :=
  Tensor (1%nat :: shape t) (fun idx => at_ t (tl idx)).

(** [t[k]] on the first axis. *)
Definition sub_tensor (t : tensor) (k : nat) : tensor :=
  Tensor (tl (shape t)) (fun idx => at_ t (k :: idx)).

(** [for x in t]: the sub-arrays along the first axis. *)
Definition unbind (t : tensor) : result (list tensor) :=
  match shape t with
  | [] => Err (Exn InPython "TypeError" "iteration over a 0-d array")
  | n :: _ => Ok (map (sub_tensor t) (seq 0 n))
  end.

Definition shape_eqb (s1 s2 : list nat) : bool :=
  if list_eq_dec Nat.eq_dec s1 s2 then true else false.

(** [torch.stack(ts)]: a new first axis. *)
Definition torch_stack (ts : list tensor) : result tensor :=
  match ts with
  | [] => Err (Exn (InTorch "stack") "RuntimeError" "stack expects a non-empty TensorList")
  | t0 :: rest =>
      if forallb (fun t => shape_eqb (shape t) (shape t0)) rest then
        Ok (Tensor (length ts :: shape t0)
                   (fun idx => match idx with
                               | k :: r => at_ (nth k ts t0) r
                               | [] => 0
                               end))
      else Err (Exn (InTorch "stack") "RuntimeError"
                    "stack expects each tensor to be equal size")
  end.

(** [torch.cat((t1, t2))] along the first axis. *)
Definition torch_cat0 (t1 t2 : tensor) : result tensor :=
  match shape t1, shape t2 with
  | n1 :: s1, n2 :: s2 =>
      if shape_eqb s1 s2 then
        Ok (Tensor ((n1 + n2)%nat :: s1)
                   (fun idx => match idx with
                               | k :: r => if (k <? n1)%nat then at_ t1 (k :: r)
                                           else at_ t2 ((k - n1)%nat :: r)
                               | [] => 0
                               end))
      else Err (Exn (InTorch "cat") "RuntimeError"
                    "Sizes of tensors must match except in dimension 0")
  | _, _ => Err (Exn (InTorch "cat") "RuntimeError"
                     "zero-dimensional tensor cannot be concatenated")
  end.

(** [a, b, c = t.shape] and [a, b, c, d = t.shape]. *)
Definition unpack3 (s : list nat) : result (nat * nat * nat) :=
  match s with
  | [a; b; c] => Ok (a, b, c)
  | _ => Err (Exn InPython "ValueError" "wrong number of values to unpack (expected 3)")
  end.

Definition unpack4 (s : list nat) : result (nat * nat * nat * nat) :=
  match s with
  | [a; b; c; d] => Ok (a, b, c, d)
  | _ => Err (Exn InPython "ValueError" "wrong number of values to unpack (expected 4)")
  end.

(** [l[0]] on a sequence. *)
Definition first {A : Type} (l : list A) : result A :=
  match l with
  | x :: _ => Ok x
  | [] => Err (Exn InPython "IndexError" "index 0 is out of bounds")
  end.

(** [np.mean(v)] on a 1-D array; the mean of an empty array is nan. *)
Definition np_mean_r (v : list Q) : result Q :=
  if (length v =? 0)%nat then NonFinite else Ok (np_mean v).

(** ** Detected poses *)

Definition point : Type := (Q * Q)%type.

(** [pose['bodies']]: [candidate] is a [K,2] array of points, [score] a [P,K]
    array of confidences. *)
Record bodies : Type := Bodies {
  candidate : list point;
  score : list (list Q)
}.

(** The detector's dict, with the entries [process] reads or writes. *)
Record pose : Type := Pose {
  pose_bodies : bodies;
  hands : list (list point);
  faces : list (list point)
}.

(** [p * a + b] on the last axis of an array of points, [a = [ax, ay]] and
    [b = [bx, by]]. *)
Definition affine (a b : point) (p : point) : point :=
  (fst p * fst a + fst b, snd p * snd a + snd b).

(** The three assignments of the rescale loop (lines 266-268). *)
Definition rescale (a b : point) (p : pose) : pose :=
  let candidate' := map (affine a b) (candidate (pose_bodies p)) in
  let faces' := map (map (affine a b)) (faces p) in
  let hands' := map (map (affine a b)) (hands p) in
  Pose (Bodies candidate' (score (pose_bodies p))) hands' faces'.

(** The values of the fitting stage (lines 253-260). *)
Record fit : Type := Fit {
  detected_bodies : list (list point);
  f_ay : Q;
  f_by : Q;
  f_ax : Q;
  f_bx : Q
}.

(** The local variables of [MimicMotionGetPoses.process] at its [return]. *)
Record locals : Type := Locals {
  l_ref_pose : pose;
  l_ref_keypoint_id : list nat;
  l_ref_body : list point;
  l_height : nat;
  l_width : nat;
  l_fit : fit;
  l_detected_poses_np_list : list pose;
  l_output_tensor : tensor
}.

Definition canonical_keypoint_id : list nat :=
  [0; 1; 2; 5; 8; 11; 14; 15; 16; 17]%nat.

Definition times255 (t : tensor) : tensor := t_map (fun v => v * 255) t.
Definition div255 (t : tensor) : tensor := t_map (fun v => v / 255) t.

(** ** MimicMotionGetPoses *)

Module MimicMotionGetPoses.
Section WithCollaborators.

(** [DWposeDetector.__call__] and [draw_pose] of mimicmotion.dwpose, and the
    coefficients [np.polyfit] gets from [lstsq]. *)
Variable dwprocessor : tensor -> pose.
Variable draw_pose : pose -> nat -> nat -> bool -> bool -> bool -> tensor.
Variable lstsq_line : list Q -> list Q -> Q * Q.

(** The condition of the list comprehension of lines 240-241:
    [score.shape[0] > 0 and score[0][i] > 0.3]. *)
Definition keep_keypoint (ref_pose : pose) (i : nat) : result bool :=
  let sc := score (pose_bodies ref_pose) in
  if (0 <? length sc)%nat then
    row <- first sc ;;
    s <- match nth_error row i with
         | Some s => Ok s
         | None => Err (Exn (InNumPy "__getitem__") "IndexError" "index out of bounds")
         end ;;
    Ok (Qlt_bool (3 # 10) s)
  else Ok false.

(** Lines 239-242: [ref_keypoint_id] and [ref_body]. *)
Definition select_keypoints (ref_pose : pose) : result (list nat * list point) :=
  ref_keypoint_id <- filterM (keep_keypoint ref_pose) canonical_keypoint_id ;;
  ref_body <- np_take (candidate (pose_bodies ref_pose)) ref_keypoint_id ;;
  Ok (ref_keypoint_id, ref_body).

(** Lines 253-260: the fitting set and the rescale parameters.  [imgs] are
    the driving frames ([pose_images_np]) and [detected_poses_np_list] their
    detections. *)
Definition fit_affine (ref_keypoint_id : list nat) (ref_body : list point)
    (height width : nat) (imgs : list tensor)
    (detected_poses_np_list : list pose) : result fit :=
  stacked <- np_stack
    (map (fun p => candidate (pose_bodies p))
         (filter (fun p => (length (candidate (pose_bodies p)) =? 18)%nat)
                 detected_poses_np_list)) ;;
  detected_bodies <- mapM (fun body => np_take body ref_keypoint_id) stacked ;;
  ' (ay, by') <- np_polyfit1 lstsq_line
      (concat (map (map snd) detected_bodies))
      (np_tile (map snd ref_body) (length detected_bodies)) ;;
  img0 <- first imgs ;;
  ' (fh, fw, _) <- unpack3 (shape img0) ;;
  q <- py_truediv (of_int fh) (of_int fw) ;;
  q <- py_truediv q (of_int height) ;;
  ax <- np_truediv ay (q * of_int width) ;;
  bx <- np_mean_r
      (map2 Qminus
         (np_tile (map fst ref_body) (length detected_bodies))
         (map (fun v => v * ax) (concat (map (map fst) detected_bodies)))) ;;
  Ok (Fit detected_bodies ay by' ax bx).

(** Lines 263-278: the rescale loop, the renderings and the output tensor. *)
Definition render (ref_pose : pose) (height width : nat) (f : fit)
    (detected_poses_np_list : list pose)
    (include_body include_hand include_face : bool)
    : result (list pose * tensor) :=
  let a := (f_ax f, f_ay f) in
  let b := (f_bx f, f_by f) in
  let detected_poses_np_list := map (rescale a b) detected_poses_np_list in
  let output_pose :=
    map (fun detected_pose =>
           draw_pose detected_pose height width
                     include_body include_hand include_face)
        detected_poses_np_list in
  output_tensor <- torch_stack output_pose ;;
  let output_tensor := div255 output_tensor in
  let ref_pose_img :=
    draw_pose ref_pose height width include_body include_hand include_face in
  let ref_pose_tensor := div255 ref_pose_img in
  output_tensor <- torch_cat0 (unsqueeze0 ref_pose_tensor) output_tensor ;;
  output_tensor <- permute [0; 2; 3; 1]%nat output_tensor ;;
  Ok (detected_poses_np_list, output_tensor).

(** The body of [process], with its local variables. *)
Definition process_locals (ref_image pose_images : tensor)
    (include_body include_hand include_face : bool) : result locals :=
  let ref_image := times255 (squeeze0 ref_image) in
  let ref_pose := dwprocessor ref_image in
  ' (ref_keypoint_id, ref_body) <- select_keypoints ref_pose ;;
  ' (height, width, _) <- unpack3 (shape ref_image) ;;
  let pose_images_np := times255 pose_images in
  imgs <- unbind pose_images_np ;;
  let detected_poses_np_list := map dwprocessor imgs in
  f <- fit_affine ref_keypoint_id ref_body height width imgs
                  detected_poses_np_list ;;
  ' (detected_poses_np_list, output_tensor) <-
      render ref_pose height width f detected_poses_np_list
             include_body include_hand include_face ;;
  Ok (Locals ref_pose ref_keypoint_id ref_body height width f
             detected_poses_np_list output_tensor).

(** [MimicMotionGetPoses.process]. *)
Definition process (ref_image pose_images : tensor)
    (include_body include_hand include_face : bool) : result tensor :=
  fmap l_output_tensor
       (process_locals ref_image pose_images
                       include_body include_hand include_face).

End WithCollaborators.
End MimicMotionGetPoses.

(** ** MimicMotionSampler *)

Inductive torch_dtype : Type := bfloat16 | float16 | float32.

Module MimicMotionSampler.
Section WithPipeline.

(** The [MimicMotionPipeline] object and its [__call__(...).frames]. *)
Variable pipeline_t : Type.

(** The arguments of the pipeline call of lines 162-179. *)
Record pipeline_args : Type := PipelineArgs {
  image : tensor;
  image_pose : tensor;
  num_frames : nat;
  tile_size : nat;
  tile_overlap : nat;
  height : nat;
  width : nat;
  fps : nat;
  noise_aug_strength : Q;
  num_inference_steps : nat;
  generator_seed : N;
  min_guidance_scale : Q;
  max_guidance_scale : Q;
  decode_chunk_size : nat;
  output_type : string
}.

Variable pipeline_call : pipeline_t -> pipeline_args -> tensor.

(** The dict the loader returns. *)
Record mimic_model : Type := MimicModel {
  mm_pipeline : pipeline_t;
  mm_dtype : torch_dtype
}.

(** Lines 153-178: the arguments [process] hands to the pipeline.  The cast
    [.to(dtype)] of lines 154-155 rounds the values to fp16 or bf16; it is not
    modelled, the values are those before the rounding. *)
Definition call_args (ref_image pose_images : tensor)
    (cfg_min cfg_max : Q) (steps : nat) (seed : N) (noise_aug_strength : Q)
    (fps : nat) : result pipeline_args :=
  ' (B, H, W, C) <- unpack4 (shape pose_images) ;;
  ref_image <- permute [0; 3; 1; 2]%nat ref_image ;;
  pose_images <- permute [0; 3; 1; 2]%nat pose_images ;;
  let ref_image := t_map (fun v => v * 2 - 1) ref_image in
  let pose_images := t_map (fun v => v * 2 - 1) pose_images in
  Ok (PipelineArgs ref_image pose_images B 16 6 H W fps noise_aug_strength
                   steps seed cfg_min cfg_max 8 "pt").

(** [MimicMotionSampler.process]. *)
Definition process (mimic_pipeline : mimic_model) (ref_image pose_images : tensor)
    (cfg_min cfg_max : Q) (steps : nat) (seed : N) (noise_aug_strength : Q)
    (fps : nat) (keep_model_loaded : bool) : result tensor :=
  let pipeline := mm_pipeline mimic_pipeline in
  args <- call_args ref_image pose_images cfg_min cfg_max steps seed
                    noise_aug_strength fps ;;
  let frames := pipeline_call pipeline args in
  frames <- permute [0; 2; 3; 1]%nat (squeeze0 frames) ;;
  Ok frames.

End WithPipeline.
End MimicMotionSampler.

(** ** DownloadAndLoadMimicMotionModel *)

Module DownloadAndLoadMimicMotionModel.

(** The choices of the [precision] input. *)
Inductive precision : Type := fp32 | fp16 | bf16.

Definition dtype_of (p : precision) : torch_dtype :=
  match p with
  | bf16 => bfloat16
  | fp16 => float16
  | fp32 => float32
  end.

(** What a run of [loadmodel] does to the outside, in order. *)
Inductive event : Type :=
| ev_exists (path : string) (found : bool)
| ev_print (line : string)
| ev_snapshot_download (repo_id allow_pattern local_dir : string)
| ev_MimicMotionModel (base_model_path : string)
| ev_load_torch_file (path : string)
| ev_MimicMotionPipeline
| ev_to (component : string) (dt : torch_dtype).

(** [os.path.join] on relative components. *)
Definition path_join (a b : string) : string :=
  String.append a (String.append "/" b).

Section WithHost.

(** [folder_paths.models_dir], the file system and the hub download. *)
Variable models_dir : string.
Variable fs : Type.
Variable path_exists : fs -> string -> bool.
Variable snapshot_download : fs -> string -> string -> string -> fs.
Variable pipeline_t : Type.
Variable MimicMotionPipeline : fs -> string -> string -> torch_dtype -> pipeline_t.

Record world : Type := World {
  w_fs : fs;
  w_trace : list event
}.

Definition M (A : Type) : Type := world -> result A * world.

Definition ret {A : Type} (a : A) : M A := fun w => (Ok a, w).

Definition raise {A : Type} (e : exn) : M A := fun w => (Err e, w).

Definition bindM {A B : Type} (m : M A) (k : A -> M B) : M B :=
  fun w => match m w with
           | (Ok a, w') => k a w'
           | (Err e, w') => (Err e, w')
           | (NonFinite, w') => (NonFinite, w')
           end.

Definition emit (e : event) : M unit :=
  fun w => (Ok tt, World (w_fs w) (w_trace w ++ [e])).

Definition os_path_exists (p : string) : M bool :=
  fun w => let found := path_exists (w_fs w) p in
           (Ok found, World (w_fs w) (w_trace w ++ [ev_exists p found])).

Definition hub_snapshot_download (repo_id allow_pattern local_dir : string) : M unit :=
  fun w => (Ok tt,
            World (snapshot_download (w_fs w) repo_id allow_pattern local_dir)
                  (w_trace w ++ [ev_snapshot_download repo_id allow_pattern local_dir])).

Definition get_fs : M fs := fun w => (Ok (w_fs w), w).

Notation "x <~ m ;; k" := (bindM m (fun x => k))
  (at level 61, m at next level, right associativity).
Notation "m ;;; k" := (bindM m (fun _ => k))
  (at level 61, right associativity).

Definition download_path : string := path_join models_dir "mimicmotion".

Definition svd_path : string :=
  path_join (path_join models_dir "diffusers")
            "stable-video-diffusion-img2vid-xt-1-1".

Definition svd_missing : exn :=
  Exn InNode "ValueError"
      (String.append "Please download stable-video-diffusion-img2vid-xt-1-1 to "
                     svd_path).

Record mimic_model : Type := MimicModel {
  mm_pipeline : pipeline_t;
  mm_dtype : torch_dtype
}.

(** [DownloadAndLoadMimicMotionModel.loadmodel].  The host's device and cache
    calls ([mm.get_torch_device], [mm.soft_empty_cache]) leave no event; the
    construction of the model and of the pipeline (lines 100-115) is the
    events it emits and the handle [MimicMotionPipeline] stands for. *)
Definition loadmodel (precision : precision) (model : string) : M mimic_model :=
  let dtype := dtype_of precision in
  let model_path := path_join download_path model in
  found <~ os_path_exists model_path ;;
  (if negb found then
     emit (ev_print (String.append "Downloading model to: " model_path)) ;;;
     hub_snapshot_download "Kijai/MimicMotion_pruned"
                           (String.append "*" (String.append model "*"))
                           download_path
   else ret tt) ;;;
  emit (ev_print (String.append "Loading model from: " model_path)) ;;;
  found <~ os_path_exists svd_path ;;
  if negb found then raise svd_missing
  else
    emit (ev_MimicMotionModel svd_path) ;;;
    emit (ev_load_torch_file model_path) ;;;
    emit ev_MimicMotionPipeline ;;;
    emit (ev_to "unet" dtype) ;;;
    emit (ev_to "pose_net" dtype) ;;;
    emit (ev_to "vae" dtype) ;;;
    emit (ev_to "image_encoder" dtype) ;;;
    emit (ev_to "pose_net" dtype) ;;;
    files <~ get_fs ;;
    ret (MimicModel (MimicMotionPipeline files svd_path model_path dtype) dtype).

End WithHost.
End DownloadAndLoadMimicMotionModel.

(** ** Reading the claims: definitions that follow the specification *)

(** The reference confidence of landmark [i] exceeds 0.3 (and there is a
    reference detection to read it from). *)
Definition confident (ref_pose : pose) (i : nat) : bool :=
  match score (pose_bodies ref_pose) with
  | [] => false
  | row :: _ => Qlt_bool (3 # 10) (nth i row 0)
  end.

(** The landmarks of [body] at the indices [I], in the order of [I]. *)
Definition restrict (I : list nat) (body : list point) : list point :=
  map (fun i => nth i body (0, 0)) I.

(** A complete detection: all 18 canonical body landmarks. *)
Definition complete (p : pose) : bool :=
  (length (candidate (pose_bodies p)) =? 18)%nat.

(** The driving frames of a [N,H,W,C] tensor, scaled to 0..255. *)
Definition driving_frames (pose_images : tensor) : list tensor :=
  map (sub_tensor (times255 pose_images)) (seq 0 (hd O (shape pose_images))).


(** The spec's correspondences of one axis: for every fitting frame, in order,
    and every index of [I], in order, the driving coordinate paired with the
    reference coordinate at that index. *)
Definition correspondences (coord : point -> Q) (ref_body : list point)
    (fitting : list (list point)) : list (Q * Q) :=
  flat_map (fun body => combine (map coord body) (map coord ref_body)) fitting.




(** ** A run on concrete data *)

Module Fixture.

(** A stand-in detector: the value of the first pixel tells the frames
    apart.  Value 0 is the reference image, value 1 a frame at half its
    scale, anything else a frame in which 17 landmarks were found. *)
Definition mk_body (ys : list Q) : list point :=
  map (fun y => (y / 2, y)) ys.

Definition ref_ys : list Q :=
  [100; 150; 200; 210; 220; 230; 240; 250; 260; 270;
   280; 290; 300; 310; 320; 330; 340; 350].

Definition ref_score : list Q :=
  [9 # 10; 9 # 10; 9 # 10; 1 # 10; 1 # 10; 1 # 10; 1 # 10; 1 # 10; 1 # 10;
   1 # 10; 1 # 10; 1 # 10; 1 # 10; 1 # 10; 1 # 10; 1 # 10; 1 # 10; 1 # 10].

Definition ref_pose : pose :=
  Pose (Bodies (mk_body ref_ys) [ref_score]) [[(1, 2)]] [[(3, 4)]].

Definition half_pose : pose :=
  Pose (Bodies (mk_body (map (fun y => y / 2) ref_ys)) [ref_score])
       [[(5, 6)]] [[(7, 8)]].

Definition partial_pose : pose :=
  Pose (Bodies (mk_body (firstn 17 ref_ys)) [ref_score]) [[(9, 10)]] [].

Definition nobody_pose : pose := Pose (Bodies [] []) [] [].

Definition detector (img : tensor) : pose :=
  if Qeq_bool (at_ img [O; O; O]) 0 then ref_pose
  else if Qeq_bool (at_ img [O; O; O]) 1 then half_pose
  else if Qeq_bool (at_ img [O; O; O]) 3 then nobody_pose
  else partial_pose.

(** A stand-in renderer: a [3,height,width] image whose pixels tell which
    parts were asked for and where the first body landmark is. *)
Definition renderer (p : pose) (height width : nat)
    (include_body include_hand include_face : bool) : tensor :=
  Tensor [3; height; width]%nat
         (fun _ => (if include_body then 1 else 0)
                   + (if include_hand then 2 else 0)
                   + (if include_face then 4 else 0)
                   + snd (nth O (candidate (pose_bodies p)) (0, 0))).

(** Images of height 4 and width 2 with constant pixels. *)
Definition ref_image : tensor := Tensor [1; 4; 2; 3]%nat (fun _ => 0).

(** Two driving frames of height 2 and width 4: one complete, one not. *)
Definition pose_images : tensor :=
  Tensor [2; 2; 4; 3]%nat
         (fun idx => match idx with
                     | O :: _ => 1 # 255
                     | _ => 2 # 255
                     end).

(** No driving frame at all. *)
Definition no_frames : tensor := Tensor [0; 2; 4; 3]%nat (fun _ => 0).

(** A reference image on which nobody is detected. *)
Definition empty_room : tensor := Tensor [1; 4; 2; 3]%nat (fun _ => 3 # 255).

(** The run on the reference image and the two driving frames, and the
    local variables it ends with. *)
Definition run : result locals :=
  MimicMotionGetPoses.process_locals detector renderer lstsq_rcond
    ref_image pose_images true true true.

Definition run_locals : locals :=
  match run with
  | Ok l => l
  | _ => Locals nobody_pose [] [] 0 0 (Fit [] 0 0 0 0) [] (Tensor [] (fun _ => 0))
  end.

(** The same run with the hands and the face left out of the drawing. *)
Definition run_locals_body_only : locals :=
  match MimicMotionGetPoses.process_locals detector renderer lstsq_rcond
          ref_image pose_images true false false with
  | Ok l => l
  | _ => Locals nobody_pose [] [] 0 0 (Fit [] 0 0 0 0) [] (Tensor [] (fun _ => 0))
  end.

(** A stand-in pipeline: one batch of [num_frames] grey frames. *)
Definition grey_pipeline (_ : unit) (args : MimicMotionSampler.pipeline_args)
    : tensor :=
  Tensor [1%nat; MimicMotionSampler.num_frames args; 3%nat;
          MimicMotionSampler.height args; MimicMotionSampler.width args]
         (fun _ => 1 # 2).

Definition sampler_ref_image : tensor := Tensor [1; 4; 2; 3]%nat (fun _ => 1 # 4).

Definition sampler_pose_images : tensor :=
  Tensor [3; 4; 2; 3]%nat (fun _ => 1 # 2).

(** A stand-in file system: the list of the paths that exist; a download adds
    the checkpoint to the directory it is told. *)
Definition disk : Type := list string.

Definition on_disk (d : disk) (path : string) : bool :=
  existsb (String.eqb path) d.

Definition fetch (d : disk) (repo_id allow_pattern local_dir : string) : disk :=
  DownloadAndLoadMimicMotionModel.path_join local_dir
    "MimicMotion-fp16.safetensors" :: d.

Definition build (d : disk) (svd model : string) (dt : torch_dtype) : unit := tt.

End Fixture.

(** More concrete data: runs that end in other ways. *)
Module Scenes.

(** A reference detection whose score row stops after two landmarks. *)
Definition short_row_pose : pose :=
  Pose (Bodies (Fixture.mk_body Fixture.ref_ys) [[9 # 10; 9 # 10]]) [] [].

(** The reference detection with every landmark found with confidence 0.9. *)
Definition sure_pose : pose :=
  Pose (Bodies (Fixture.mk_body Fixture.ref_ys) [repeat (9 # 10) 18]) [] [].

(** A detection whose landmarks are level but for the first one, which is
    one unit off: heights [h + 1, h, ..., h]. *)
Definition level_pose (h : Q) : pose :=
  Pose (Bodies (Fixture.mk_body (h + 1 :: repeat h 17))
               [repeat (9 # 10) 18]) [] [].


(** The stand-in detector, with value 4 for the short score row, 5 for the
    sure reference, 6 for landmarks level at [2^52] and 7 for landmarks level
    at [2^43]. *)
Definition detector (img : tensor) : pose :=
  if Qeq_bool (at_ img [O; O; O]) 4 then short_row_pose
  else if Qeq_bool (at_ img [O; O; O]) 5 then sure_pose
  else if Qeq_bool (at_ img [O; O; O]) 6 then level_pose 4503599627370496
  else if Qeq_bool (at_ img [O; O; O]) 7 then level_pose 8796093022208
  else Fixture.detector img.

Definition blurred : tensor := Tensor [1; 4; 2; 3]%nat (fun _ => 4 # 255).




(** A renderer of grey [3,height,width] images. *)
Definition grey_renderer (p : pose) (height width : nat)
    (include_body include_hand include_face : bool) : tensor :=
  Tensor [3; height; width]%nat (fun _ => 128).

Definition no_locals : locals :=
  Locals Fixture.nobody_pose [] [] 0 0 (Fit [] 0 0 0 0) []
         (Tensor [] (fun _ => 0)).

Definition grey_run_locals : locals :=
  match MimicMotionGetPoses.process_locals Fixture.detector grey_renderer
          lstsq_rcond Fixture.ref_image Fixture.pose_images true true true with
  | Ok l => l
  | _ => no_locals
  end.

(** Three driving frames of height 2 and width 4: the frame at half scale, a
    frame in which 17 landmarks were found, and a frame that shows the
    reference image itself. *)
Definition three_images : tensor :=
  Tensor [3; 2; 4; 3]%nat
         (fun idx => match idx with
                     | O :: _ => 1 # 255
                     | 1%nat :: _ => 2 # 255
                     | _ => 0
                     end).

Definition three_run_locals : locals :=
  match MimicMotionGetPoses.process_locals Fixture.detector Fixture.renderer
          lstsq_rcond Fixture.ref_image three_images true true true with
  | Ok l => l
  | _ => no_locals
  end.


End Scenes.

(** * Properties *)

(** ** The error monad and the list helpers *)

Lemma bind_Ok {A B : Type} (m : result A) (k : A -> result B) (b : B) :
  bind m k = Ok b -> exists a, m = Ok a /\ k a = Ok b.
Proof.
  destruct m as [a | e |]; simpl; intros H; try discriminate.
  exists a; split; [reflexivity | exact H].
Qed.

Ltac bind_inv H :=
  let x := fresh "x" in
  let Hm := fresh "Hm" in
  apply bind_Ok in H; destruct H as [x [Hm H]].

Tactic Notation "bind_split" hyp(H) "as" simple_intropattern(x) ident(Hm) :=
  apply bind_Ok in H; destruct H as [x [Hm H]].

Lemma mapM_Ok {A B : Type} (f : A -> result B) (l : list A) (r : list B) :
  mapM f l = Ok r -> Forall2 (fun x y => f x = Ok y) l r.
Proof.
  revert r; induction l as [| x xs IH]; simpl; intros r H.
  - injection H as <-. constructor.
  - bind_inv H. bind_inv H. injection H as <-.
    constructor; [assumption | apply IH; assumption].
Qed.

Lemma mapM_total {A B : Type} (f : A -> result B) (g : A -> B) (l : list A) :
  Forall (fun x => f x = Ok (g x)) l -> mapM f l = Ok (map g l).
Proof.
  induction 1 as [| x xs Hx _ IH]; simpl; [reflexivity |].
  rewrite Hx; simpl. rewrite IH; reflexivity.
Qed.

Lemma filterM_Ok {A : Type} (c : A -> result bool) (p : A -> bool)
    (l : list A) (r : list A) :
  (forall x b, c x = Ok b -> b = p x) ->
  filterM c l = Ok r -> r = filter p l.
Proof.
  intros Hc; revert r; induction l as [| x xs IH]; simpl; intros r H.
  - injection H as <-. reflexivity.
  - bind_inv H. bind_inv H. injection H as <-.
    rewrite <- (Hc _ _ Hm), (IH _ Hm0). reflexivity.
Qed.

Lemma np_take_Ok {A : Type} (d : A) (a : list A) (idx : list nat) (out : list A) :
  np_take a idx = Ok out ->
  out = map (fun i => nth i a d) idx /\ Forall (fun i => (i < length a)%nat) idx.
Proof.
  unfold np_take; intros H; apply mapM_Ok in H.
  induction H as [| i y idx' out' Hi _ [IH1 IH2]]; simpl.
  - split; constructor.
  - destruct (nth_error a i) as [v |] eqn:E; [| discriminate].
    injection Hi as <-.
    split.
    + rewrite (nth_error_nth _ _ d E), IH1. reflexivity.
    + constructor; [| assumption].
      apply nth_error_Some. rewrite E. discriminate.
Qed.

Lemma np_take_total {A : Type} (d : A) (a : list A) (idx : list nat) :
  Forall (fun i => (i < length a)%nat) idx ->
  np_take a idx = Ok (map (fun i => nth i a d) idx).
Proof.
  intros H. unfold np_take. apply mapM_total.
  induction H as [| i idx' Hi _ IH]; constructor; [| assumption].
  destruct (nth_error a i) as [v |] eqn:E.
  - rewrite (nth_error_nth _ _ d E). reflexivity.
  - apply nth_error_None in E. lia.
Qed.

Lemma filter_length_le {A : Type} (p : A -> bool) (l : list A) :
  (length (filter p l) <= length l)%nat.
Proof.
  induction l as [| x xs IH]; simpl; [lia |].
  destruct (p x); simpl; lia.
Qed.

Lemma unbind_Ok (t : tensor) (imgs : list tensor) :
  unbind t = Ok imgs ->
  imgs = map (sub_tensor t) (seq 0 (hd O (shape t))) /\ shape t <> [].
Proof.
  unfold unbind. destruct (shape t) as [| n s]; [discriminate |].
  intros H; injection H as <-. split; [reflexivity | discriminate].
Qed.

(** ** Selection of the reference keypoints (lines 239-242) *)

Lemma keep_keypoint_confident (p : pose) (i : nat) (b : bool) :
  MimicMotionGetPoses.keep_keypoint p i = Ok b -> b = confident p i.
Proof.
  unfold MimicMotionGetPoses.keep_keypoint, confident.
  destruct (score (pose_bodies p)) as [| row rows]; simpl.
  - intros H; injection H as <-. reflexivity.
  - destruct (nth_error row i) as [s |] eqn:E; simpl; [| discriminate].
    intros H; injection H as <-.
    rewrite (nth_error_nth _ _ 0 E). reflexivity.
Qed.

Lemma select_keypoints_Ok (p : pose) (I : list nat) (ref_body : list point) :
  MimicMotionGetPoses.select_keypoints p = Ok (I, ref_body) ->
  I = filter (confident p) canonical_keypoint_id
  /\ ref_body = restrict I (candidate (pose_bodies p))
  /\ Forall (fun i => (i < length (candidate (pose_bodies p)))%nat) I.
Proof.
  unfold MimicMotionGetPoses.select_keypoints.
  intros H. bind_inv H. bind_inv H. injection H as <- <-.
  apply (filterM_Ok _ (confident p)) in Hm;
    [| intros i b; apply keep_keypoint_confident].
  destruct (np_take_Ok (0, 0) _ _ _ Hm0) as [Hb Hr].
  repeat split; assumption.
Qed.

Lemma canonical_below_18 (q : nat -> bool) :
  Forall (fun i => (i < 18)%nat) (filter q canonical_keypoint_id).
Proof.
  apply Forall_forall; intros i Hi. apply filter_In in Hi as [Hi _].
  unfold canonical_keypoint_id in Hi; simpl in Hi.
  repeat (destruct Hi as [<- | Hi]; [lia |]). contradiction.
Qed.


(** ** The stages of [MimicMotionGetPoses.process] *)

Lemma take_rows_Ok (I : list nat) (stacked out : list (list point)) :
  mapM (fun body => np_take body I) stacked = Ok out ->
  out = map (restrict I) stacked.
Proof.
  intros H; apply mapM_Ok in H.
  induction H as [| body y l l' Hy _ IH]; simpl; [reflexivity |].
  destruct (np_take_Ok (0, 0) _ _ _ Hy) as [-> _]. rewrite IH. reflexivity.
Qed.

Lemma np_stack_Ok {A : Type} (arrays out : list (list A)) :
  np_stack arrays = Ok out -> out = arrays /\ arrays <> [].
Proof.
  unfold np_stack. destruct arrays as [| a0 rest]; [discriminate |].
  destruct (forallb _ rest); [| discriminate].
  intros H; injection H as <-. split; [reflexivity | discriminate].
Qed.

Lemma np_stack_same_length {A : Type} (n : nat) (arrays : list (list A)) :
  Forall (fun a => length a = n) arrays -> arrays <> [] ->
  np_stack arrays = Ok arrays.
Proof.
  intros H Hne. destruct arrays as [| a0 rest]; [contradiction |].
  unfold np_stack. inversion H as [| ? ? H0 Hrest]; subst.
  rewrite (proj2 (forallb_forall _ rest)); [reflexivity |].
  intros a Ha. apply Nat.eqb_eq.
  rewrite Forall_forall in Hrest. apply Hrest; assumption.
Qed.

Lemma unpack3_Ok (s : list nat) (a b c : nat) :
  unpack3 s = Ok (a, b, c) -> s = [a; b; c].
Proof.
  unfold unpack3.
  destruct s as [| a' [| b' [| c' [| ? ?]]]]; try discriminate.
  intros H; injection H as <- <- <-. reflexivity.
Qed.

Lemma py_truediv_Ok (a b q : Q) :
  py_truediv a b = Ok q -> q = a / b /\ ~ b == 0.
Proof.
  unfold py_truediv. destruct (Qeq_bool b 0) eqn:E; [discriminate |].
  intros H; injection H as <-. split; [reflexivity |].
  apply Qeq_bool_neq; assumption.
Qed.

Lemma np_truediv_Ok (a b q : Q) :
  np_truediv a b = Ok q -> q = a / b /\ ~ b == 0.
Proof.
  unfold np_truediv. destruct (Qeq_bool b 0) eqn:E; [discriminate |].
  intros H; injection H as <-. split; [reflexivity |].
  apply Qeq_bool_neq; assumption.
Qed.

(** A call of [np.polyfit(x, y, 1)] that returns was given as many [y] as
    [x], at least one, and returns the coefficients of [lstsq]. *)
Lemma np_polyfit1_Ok (line : list Q -> list Q -> Q * Q) (x y : list Q)
    (ab : Q * Q) :
  np_polyfit1 line x y = Ok ab ->
  length x = length y /\ x <> [] /\ ab = line x y.
Proof.
  unfold np_polyfit1.
  destruct (length x =? 0)%nat eqn:E0; [discriminate |].
  destruct (length x =? length y)%nat eqn:El; [| discriminate].
  cbn [negb].
  destruct (Qeq_bool (Qsum (map2 Qmult x x)) 0); [discriminate |].
  intros H; injection H as <-.
  apply Nat.eqb_eq in El. apply Nat.eqb_neq in E0.
  split; [exact El |]. split; [intros ->; apply E0; reflexivity | reflexivity].
Qed.

Section Stages.

Variable dwprocessor : tensor -> pose.
Variable draw_pose : pose -> nat -> nat -> bool -> bool -> bool -> tensor.
Variable lstsq_line : list Q -> list Q -> Q * Q.

(** What a successful fitting stage has computed. *)
Lemma fit_affine_Ok (I : list nat) (ref_body : list point) (height width : nat)
    (imgs : list tensor) (detected : list pose) (f : fit) :
  MimicMotionGetPoses.fit_affine lstsq_line I ref_body height width
    imgs detected = Ok f ->
  detected_bodies f
    = map (fun p => restrict I (candidate (pose_bodies p)))
          (filter complete detected)
  /\ filter complete detected <> []
  /\ np_polyfit1 lstsq_line (concat (map (map snd) (detected_bodies f)))
                 (np_tile (map snd ref_body) (length (detected_bodies f)))
     = Ok (f_ay f, f_by f)
  /\ (exists img0 rest fh fw c,
        imgs = img0 :: rest /\ shape img0 = [fh; fw; c]
        /\ ~ of_int fw == 0 /\ ~ of_int height == 0
        /\ ~ of_int fh / of_int fw / of_int height * of_int width == 0
        /\ f_ax f
           = f_ay f / (of_int fh / of_int fw / of_int height * of_int width))
  /\ f_bx f
     = np_mean
         (map2 Qminus
            (np_tile (map fst ref_body) (length (detected_bodies f)))
            (map (fun v => v * f_ax f)
                 (concat (map (map fst) (detected_bodies f))))).
Proof.
  unfold MimicMotionGetPoses.fit_affine. intros H.
  bind_split H as stacked Hstack.
  destruct (np_stack_Ok _ _ Hstack) as [-> Hne]. clear Hstack.
  bind_split H as bodies Htake.
  apply take_rows_Ok in Htake. rewrite map_map in Htake.
  bind_split H as [ay by'] Hfit.
  bind_split H as img0 Himg0.
  bind_split H as [[fh fw] c] Hshape.
  bind_split H as q1 Hq1. bind_split H as q2 Hq2.
  bind_split H as ax Hax. bind_split H as bx Hbx.
  injection H as <-. simpl.
  destruct (py_truediv_Ok _ _ _ Hq1) as [-> Hfw].
  destruct (py_truediv_Ok _ _ _ Hq2) as [-> Hh].
  destruct (np_truediv_Ok _ _ _ Hax) as [-> Hden].
  split; [exact Htake |].
  split; [intros E; apply Hne; unfold complete in E; rewrite E; reflexivity |].
  split; [exact Hfit |].
  split.
  - destruct imgs as [| i0 rest]; [discriminate |].
    injection Himg0 as <-.
    exists i0, rest, fh, fw, c.
    apply unpack3_Ok in Hshape.
    repeat split; assumption.
  - unfold np_mean_r in Hbx.
    destruct (length _ =? 0)%nat; [discriminate |].
    injection Hbx as <-. reflexivity.
Qed.

(** What a successful run has computed, stage by stage. *)
Lemma process_locals_Ok (ref_image pose_images : tensor)
    (include_body include_hand include_face : bool) (l : locals) :
  MimicMotionGetPoses.process_locals dwprocessor draw_pose lstsq_line
    ref_image pose_images include_body include_hand include_face = Ok l ->
  let ref_image' := times255 (squeeze0 ref_image) in
  l_ref_pose l = dwprocessor ref_image'
  /\ MimicMotionGetPoses.select_keypoints (l_ref_pose l) = Ok (l_ref_keypoint_id l, l_ref_body l)
  /\ (exists c, shape ref_image' = [l_height l; l_width l; c])
  /\ shape pose_images <> []
  /\ MimicMotionGetPoses.fit_affine lstsq_line (l_ref_keypoint_id l)
                (l_ref_body l) (l_height l) (l_width l)
                (driving_frames pose_images)
                (map dwprocessor (driving_frames pose_images))
     = Ok (l_fit l)
  /\ MimicMotionGetPoses.render draw_pose (l_ref_pose l) (l_height l) (l_width l) (l_fit l)
            (map dwprocessor (driving_frames pose_images))
            include_body include_hand include_face
     = Ok (l_detected_poses_np_list l, l_output_tensor l).
Proof.
  unfold MimicMotionGetPoses.process_locals. intros H.
  bind_split H as [I ref_body] Hsel.
  bind_split H as [[height width] c] Hshape.
  bind_split H as imgs Himgs.
  destruct (unbind_Ok _ _ Himgs) as [-> Hne].
  bind_split H as f Hfit.
  bind_split H as [poses out] Hrender.
  injection H as <-. simpl.
  split; [reflexivity |].
  split; [exact Hsel |].
  split.
  - exists c. apply unpack3_Ok in Hshape. exact Hshape.
  - split; [exact Hne |]. split; assumption.
Qed.

End Stages.

(** ** Sums *)

Lemma Qsum_cons (x : Q) (l : list Q) : Qsum (x :: l) = x + Qsum l.
Proof. reflexivity. Qed.



Lemma of_int_zero (n : nat) : of_int n == 0 <-> n = O.
Proof.
  unfold of_int, Qeq; simpl. split; intros H.
  - lia.
  - subst; reflexivity.
Qed.




(** ** A frame repeated: tiled data *)

Lemma np_tile_length (v : list Q) (N : nat) :
  length (np_tile v N) = (N * length v)%nat.
Proof.
  induction N as [| N IH]; simpl; [reflexivity |].
  rewrite length_app, IH. reflexivity.
Qed.




Lemma map2_length (f : Q -> Q -> Q) (u v : list Q) :
  length u = length v -> length (map2 f u v) = length u.
Proof.
  revert v; induction u as [| a u IH]; intros [| b v] H; simpl in *;
    try discriminate; [reflexivity |].
  rewrite IH; [reflexivity | lia].
Qed.





Lemma restrict_length (I : list nat) (body : list point) :
  length (restrict I body) = length I.
Proof. unfold restrict. apply length_map. Qed.



(** ** The fitting set and the fitted line *)

Lemma combine_app_same {A B : Type} (u u' : list A) (v v' : list B) :
  length u = length v ->
  combine (u ++ u') (v ++ v') = combine u v ++ combine u' v'.
Proof.
  revert v; induction u as [| a u IH]; intros [| b v] H; simpl in *;
    try discriminate; [reflexivity |].
  rewrite IH; [reflexivity | lia].
Qed.

Lemma pooled_correspondences (coord : point -> Q) (ref_body : list point)
    (bodies : list (list point)) :
  Forall (fun body => length body = length ref_body) bodies ->
  combine (concat (map (map coord) bodies))
          (np_tile (map coord ref_body) (length bodies))
  = correspondences coord ref_body bodies.
Proof.
  unfold correspondences.
  induction 1 as [| body rest Hb _ IH]; simpl; [reflexivity |].
  rewrite combine_app_same, IH; [reflexivity |].
  rewrite !length_map. exact Hb.
Qed.

Lemma map2_minus_scaled (c : Q) (u w : list Q) :
  map2 Qminus u (map (fun v => v * c) w)
  = map (fun p => snd p - fst p * c) (combine w u).
Proof.
  revert w; induction u as [| a u IH]; intros [| b w]; simpl;
    try reflexivity.
  rewrite IH. reflexivity.
Qed.

Lemma restricted_bodies_length (I : list nat) (ref_body : list point)
    (cand : list point) (poses : list pose) :
  ref_body = restrict I cand ->
  Forall (fun body => length body = length ref_body)
         (map (fun p => restrict I (candidate (pose_bodies p))) poses).
Proof.
  intros ->. apply Forall_forall. intros body Hin.
  apply in_map_iff in Hin as [p [<- _]].
  rewrite !restrict_length. reflexivity.
Qed.

(** Of the driving images, the fitting stage reads the first one only. *)
Lemma fit_affine_first_frame (lstsq_line : list Q -> list Q -> Q * Q)
    (I : list nat) (ref_body : list point)
    (height width : nat) (imgs imgs' : list tensor) (detected : list pose) :
  first imgs = first imgs' ->
  MimicMotionGetPoses.fit_affine lstsq_line I ref_body height width
    imgs detected
  = MimicMotionGetPoses.fit_affine lstsq_line I ref_body height width
      imgs' detected.
Proof.
  intros E. unfold MimicMotionGetPoses.fit_affine. rewrite E. reflexivity.
Qed.

Lemma shape_eqb_refl (s : list nat) : shape_eqb s s = true.
Proof. unfold shape_eqb. destruct (list_eq_dec Nat.eq_dec s s); congruence. Qed.

Lemma torch_stack_same_shape (s : list nat) (t0 : tensor) (ts : list tensor) :
  Forall (fun t => shape t = s) (t0 :: ts) ->
  torch_stack (t0 :: ts)
  = Ok (Tensor (length (t0 :: ts) :: s)
               (fun idx => match idx with
                           | k :: r => at_ (nth k (t0 :: ts) t0) r
                           | [] => 0
                           end)).
Proof.
  intros H. inversion H as [| ? ? H0 Hts]; subst.
  unfold torch_stack.
  rewrite (proj2 (forallb_forall _ ts)); [reflexivity |].
  intros t Ht. rewrite Forall_forall in Hts. rewrite (Hts t Ht).
  apply shape_eqb_refl.
Qed.

Lemma filter_none {A : Type} (q : A -> bool) (l : list A) :
  Forall (fun x => q x = false) l -> filter q l = [].
Proof.
  induction 1 as [| x xs Hx _ IH]; simpl; [reflexivity |].
  rewrite Hx. exact IH.
Qed.

Lemma concat_nils {A : Type} (l : list (list A)) :
  Forall (fun x => x = []) l -> concat l = [].
Proof.
  induction 1 as [| x l Hx _ IH]; simpl; [reflexivity |].
  rewrite Hx, IH. reflexivity.
Qed.




(** ** The fit on a frame repeated *)








Section Duplication.

Variable dwprocessor : tensor -> pose.
Variable lstsq_line : list Q -> list Q -> Q * Q.


End Duplication.

Section GetPosesClaims.

Variable dwprocessor : tensor -> pose.
Variable draw_pose : pose -> nat -> nat -> bool -> bool -> bool -> tensor.
Variable lstsq_line : list Q -> list Q -> Q * Q.

(** C2.  In a run of [process] that returns, [ref_keypoint_id] is the
    canonical list of 10 indices [0,1,2,5,8,11,14,15,16,17] filtered by
    "reference confidence > 0.3", so it has at most 10 entries; and the one
    list selects both the reference landmarks [ref_body] and the landmarks of
    every frame of the fitting set. *)
Theorem correspondence_set_shared (ref_image pose_images : tensor)
    (include_body include_hand include_face : bool) (l : locals) :
  MimicMotionGetPoses.process_locals dwprocessor draw_pose lstsq_line
    ref_image pose_images include_body include_hand include_face = Ok l ->
  let I := l_ref_keypoint_id l in
  let ref_pose := dwprocessor (times255 (squeeze0 ref_image)) in
  canonical_keypoint_id = [0; 1; 2; 5; 8; 11; 14; 15; 16; 17]%nat
  /\ I = filter (confident ref_pose) canonical_keypoint_id
  /\ (forall i, In i I <->
                In i canonical_keypoint_id
                /\ exists row rest,
                     score (pose_bodies ref_pose) = row :: rest
                     /\ 3 # 10 < nth i row 0)
  /\ (length I <= 10)%nat
  /\ l_ref_body l = restrict I (candidate (pose_bodies ref_pose))
  /\ detected_bodies (l_fit l)
     = map (fun p => restrict I (candidate (pose_bodies p)))
           (filter complete (map dwprocessor (driving_frames pose_images))).
Proof.
  intros H I ref_pose.
  destruct (process_locals_Ok _ _ _ _ _ _ _ _ _ H)
    as [Href [Hsel [_ [_ [Hfit _]]]]].
  rewrite Href in Hsel. fold ref_pose in Hsel.
  destruct (select_keypoints_Ok _ _ _ Hsel) as [HI [Hrb _]].
  destruct (fit_affine_Ok _ _ _ _ _ _ _ _ Hfit) as [Hdb _].
  fold I in HI, Hrb, Hdb.
  split; [reflexivity |].
  split; [exact HI |].
  split.
  { intros i. rewrite HI, filter_In. unfold confident.
    split; intros [Hin Hc]; (split; [exact Hin |]).
    - destruct (score (pose_bodies ref_pose)) as [| row rest];
        [discriminate |].
      exists row, rest. split; [reflexivity |].
      unfold Qlt_bool in Hc. apply negb_true_iff in Hc.
      apply Qnot_le_lt. intros Hle. apply Qle_bool_iff in Hle. congruence.
    - destruct Hc as [row [rest [-> Hlt]]].
      unfold Qlt_bool. apply negb_true_iff.
      destruct (Qle_bool (nth i row 0) (3 # 10)) eqn:E; [| reflexivity].
      apply Qle_bool_iff in E. exfalso. apply (Qlt_not_le _ _ Hlt E). }
  split.
  { rewrite HI. apply (filter_length_le (confident ref_pose)). }
  split; assumption.
Qed.


(** C3.  In a run of [process] that returns, [ax] is [ay] divided by
    [(fh / fw) / height * width], [fh] and [fw] being the height and width of
    the first driving frame and [height], [width] those of the reference
    image, and the frames after the first have no part in it; [bx] is the mean,
    over the pooled pairs (driving x, reference x) of the fitting set, of
    "reference x minus driving x times ax". *)
Theorem ax_bx_from_ay (ref_image pose_images : tensor)
    (include_body include_hand include_face : bool) (l : locals) :
  MimicMotionGetPoses.process_locals dwprocessor draw_pose lstsq_line
    ref_image pose_images include_body include_hand include_face = Ok l ->
  let f := l_fit l in
  let pts := correspondences fst (l_ref_body l) (detected_bodies f) in
  exists fh fw c rest,
    driving_frames pose_images = sub_tensor (times255 pose_images) 0 :: rest
    /\ shape (sub_tensor (times255 pose_images) 0) = [fh; fw; c]
    /\ (exists c', shape (squeeze0 ref_image) = [l_height l; l_width l; c'])
    /\ f_ax f
       = f_ay f / (of_int fh / of_int fw / of_int (l_height l)
                   * of_int (l_width l))
    /\ (forall imgs',
          MimicMotionGetPoses.fit_affine lstsq_line
            (l_ref_keypoint_id l) (l_ref_body l)
            (l_height l) (l_width l)
            (sub_tensor (times255 pose_images) 0 :: imgs')
            (map dwprocessor (driving_frames pose_images)) = Ok f)
    /\ f_bx f
       = Qsum (map (fun p => snd p - fst p * f_ax f) pts)
         / of_int (length pts).
Proof.
  intros H f pts.
  destruct (process_locals_Ok _ _ _ _ _ _ _ _ _ H)
    as [Href [Hsel [[c' Hshape] [_ [Hfit _]]]]].
  destruct (select_keypoints_Ok _ _ _ Hsel) as [_ [Hrb _]].
  destruct (fit_affine_Ok _ _ _ _ _ _ _ _ Hfit)
    as [Hdb [_ [_ [[img0 [rest [fh [fw [c [Himgs [Hs0 [_ [_ [Hden Hax]]]]]]]]]] Hbx]]]].
  fold f in Hdb, Hax, Hbx, Hden.
  assert (Hfirst : img0 = sub_tensor (times255 pose_images) 0).
  { unfold driving_frames in Himgs.
    destruct (hd 0%nat (shape pose_images)); [discriminate |].
    simpl in Himgs. injection Himgs as <- _. reflexivity. }
  subst img0.
  exists fh, fw, c, rest.
  split; [exact Himgs |]. split; [exact Hs0 |].
  split; [exists c'; exact Hshape |].
  split; [exact Hax |].
  split.
  { intros imgs'. unfold f. rewrite <- Hfit. apply fit_affine_first_frame.
    rewrite Himgs. reflexivity. }
  rewrite Hbx, map2_minus_scaled. unfold np_mean.
  rewrite pooled_correspondences
    by (rewrite Hdb; apply (restricted_bodies_length _ _ _ _ Hrb)).
  rewrite length_map. reflexivity.
Qed.


Lemma render_Ok (ref_pose : pose) (height width : nat) (f : fit)
    (detected : list pose) (include_body include_hand include_face : bool)
    (poses : list pose) (out : tensor) :
  MimicMotionGetPoses.render draw_pose ref_pose height width f detected
    include_body include_hand include_face = Ok (poses, out) ->
  poses = map (rescale (f_ax f, f_ay f) (f_bx f, f_by f)) detected.
Proof.
  unfold MimicMotionGetPoses.render. intros H.
  bind_split H as stacked Hstack. bind_split H as cat Hcat.
  bind_split H as perm Hperm. injection H as <- _. reflexivity.
Qed.

(** C9.  Two runs of [process] on the same reference image and driving
    sequence that differ in [include_body], [include_hand], [include_face]
    only, and both return, have computed the same reference pose, the same
    [ref_keypoint_id] and [ref_body], the same fitting set and parameters
    [(ax, ay, bx, by)], and the same rescaled keypoints for every frame. *)
Theorem flags_only_affect_rendering (ref_image pose_images : tensor)
    (include_body include_hand include_face : bool)
    (include_body' include_hand' include_face' : bool) (l l' : locals) :
  MimicMotionGetPoses.process_locals dwprocessor draw_pose lstsq_line
    ref_image pose_images include_body include_hand include_face = Ok l ->
  MimicMotionGetPoses.process_locals dwprocessor draw_pose lstsq_line
    ref_image pose_images include_body' include_hand' include_face' = Ok l' ->
  l_ref_pose l = l_ref_pose l'
  /\ l_ref_keypoint_id l = l_ref_keypoint_id l'
  /\ l_ref_body l = l_ref_body l'
  /\ l_fit l = l_fit l'
  /\ l_detected_poses_np_list l = l_detected_poses_np_list l'.
Proof.
  intros H H'.
  destruct (process_locals_Ok _ _ _ _ _ _ _ _ _ H)
    as [Href [Hsel [[c Hshape] [_ [Hfit Hrender]]]]].
  destruct (process_locals_Ok _ _ _ _ _ _ _ _ _ H')
    as [Href' [Hsel' [[c' Hshape'] [_ [Hfit' Hrender']]]]].
  assert (Ep : l_ref_pose l = l_ref_pose l') by congruence.
  rewrite Ep in Hsel. rewrite Hsel' in Hsel.
  injection Hsel as EI Erb.
  rewrite Hshape' in Hshape. injection Hshape as Eh Ew _.
  rewrite <- EI, <- Erb, <- Eh, <- Ew, Hfit' in Hfit.
  injection Hfit as Ef.
  apply render_Ok in Hrender, Hrender'.
  repeat split; congruence.
Qed.

(** C10.  When the detector reports no body on the reference image (the score
    array has no row), the selection of lines 239-242 raises nothing: it
    returns an empty [ref_keypoint_id] and an empty [ref_body].  The run goes
    on and stops in the fitting stage: in [np.stack] when no driving frame is
    complete, in [np.polyfit], which is handed an empty vector, otherwise. *)
Theorem reference_without_bodies (ref_image pose_images : tensor)
    (include_body include_hand include_face : bool) :
  let ref_pose := dwprocessor (times255 (squeeze0 ref_image)) in
  let detected := map dwprocessor (driving_frames pose_images) in
  score (pose_bodies ref_pose) = [] ->
  (forall i, MimicMotionGetPoses.keep_keypoint ref_pose i = Ok false)
  /\ MimicMotionGetPoses.select_keypoints ref_pose = Ok ([], [])
  /\ (forall h w c n s,
        shape (squeeze0 ref_image) = [h; w; c] -> shape pose_images = n :: s ->
        MimicMotionGetPoses.process_locals dwprocessor draw_pose lstsq_line
          ref_image pose_images include_body include_hand include_face
        = match filter complete detected with
          | [] => Err (Exn (InNumPy "stack") "ValueError"
                           "need at least one array to stack")
          | _ :: _ => Err (Exn (InNumPy "polyfit") "TypeError"
                               "expected non-empty vector for x")
          end).
Proof.
  intros ref_pose detected Hscore.
  assert (Hkeep : forall i,
             MimicMotionGetPoses.keep_keypoint ref_pose i = Ok false).
  { intros i. unfold MimicMotionGetPoses.keep_keypoint.
    rewrite Hscore. reflexivity. }
  assert (Hsel : MimicMotionGetPoses.select_keypoints ref_pose = Ok ([], [])).
  { unfold MimicMotionGetPoses.select_keypoints, canonical_keypoint_id.
    cbn [filterM]. rewrite !Hkeep. reflexivity. }
  split; [exact Hkeep |]. split; [exact Hsel |].
  intros h w c n s Href Es.
  unfold MimicMotionGetPoses.process_locals.
  fold ref_pose. rewrite Hsel. cbn [bind].
  change (shape (times255 (squeeze0 ref_image)))
    with (shape (squeeze0 ref_image)).
  rewrite Href. cbn [unpack3 bind].
  unfold unbind. change (shape (times255 pose_images)) with (shape pose_images).
  rewrite Es. cbn [bind].
  assert (Ed : map dwprocessor (map (sub_tensor (times255 pose_images)) (seq 0 n))
               = detected).
  { unfold detected, driving_frames. rewrite Es. reflexivity. }
  rewrite Ed.
  unfold MimicMotionGetPoses.fit_affine.
  change (fun p : pose => (length (candidate (pose_bodies p)) =? 18)%nat)
    with complete.
  destruct (filter complete detected) as [| p ps] eqn:Ef.
  - reflexivity.
  - assert (Hall : Forall (fun a => length a = 18%nat)
                     (map (fun q => candidate (pose_bodies q)) (p :: ps))).
    { apply Forall_forall. intros a Ha.
      apply in_map_iff in Ha as [q [<- Hq]].
      rewrite <- Ef in Hq. apply filter_In in Hq as [_ Hq].
      apply Nat.eqb_eq. exact Hq. }
    rewrite (np_stack_same_length 18 _ Hall) by discriminate.
    cbn [bind].
    rewrite (mapM_total _ (fun _ => [])) by
      (apply Forall_forall; intros a _; reflexivity).
    cbn [bind].
    rewrite concat_nils.
    + reflexivity.
    + apply Forall_forall. intros x Hx.
      apply in_map_iff in Hx as [y [<- Hy]].
      apply in_map_iff in Hy as [z [<- _]]. reflexivity.
Qed.

(** C7, as the code has it.  When no driving frame has a complete 18-point
    body detection (in particular when there is no driving frame), and the
    selection on the reference image has returned, [process] stops with the
    ValueError that [np.stack] raises on an empty list, and returns nothing. *)
Theorem no_complete_frame_stops_in_stack (ref_image pose_images : tensor)
    (include_body include_hand include_face : bool)
    (I : list nat) (ref_body : list point) (h w c n : nat) (s : list nat) :
  MimicMotionGetPoses.select_keypoints
    (dwprocessor (times255 (squeeze0 ref_image))) = Ok (I, ref_body) ->
  shape (squeeze0 ref_image) = [h; w; c] ->
  shape pose_images = n :: s ->
  Forall (fun p => complete p = false)
         (map dwprocessor (driving_frames pose_images)) ->
  MimicMotionGetPoses.process dwprocessor draw_pose lstsq_line
    ref_image pose_images include_body include_hand include_face
  = Err (Exn (InNumPy "stack") "ValueError" "need at least one array to stack").
Proof.
  intros Hsel Href Es Hnone.
  unfold MimicMotionGetPoses.process, MimicMotionGetPoses.process_locals, fmap.
  rewrite Hsel. cbn [bind].
  change (shape (times255 (squeeze0 ref_image)))
    with (shape (squeeze0 ref_image)).
  rewrite Href. cbn [unpack3 bind].
  unfold unbind. change (shape (times255 pose_images)) with (shape pose_images).
  rewrite Es. cbn [bind].
  assert (Ed : map dwprocessor (map (sub_tensor (times255 pose_images)) (seq 0 n))
               = map dwprocessor (driving_frames pose_images)).
  { unfold driving_frames. rewrite Es. reflexivity. }
  rewrite Ed.
  unfold MimicMotionGetPoses.fit_affine.
  change (fun p : pose => (length (candidate (pose_bodies p)) =? 18)%nat)
    with complete.
  rewrite (filter_none _ _ Hnone). reflexivity.
Qed.


Lemma driving_frames_length (pose_images : tensor) (N : nat) (s : list nat) :
  shape pose_images = N :: s -> length (driving_frames pose_images) = N.
Proof.
  intros H. unfold driving_frames. rewrite H, length_map, length_seq. reflexivity.
Qed.

(** C4, as the code has it.  When the selection and the fit have succeeded
    (there is then at least one complete driving frame) and the renderer
    returns [3,height,width] images, [process] returns: every one of the [N]
    driving detections, complete or not, has had [(x, y)] replaced by
    [(ax x + bx, ay y + by)] in its body candidates, hands and faces; the
    output has [1 + N] images of the reference height and width, the first the
    rendering of the reference pose as detected, the image after the [k]-th
    the rendering of the rescaled [k]-th driving detection. *)
Theorem rescaled_sequence_rendered (ref_image pose_images : tensor)
    (include_body include_hand include_face : bool)
    (I : list nat) (ref_body : list point) (H W C N : nat) (s : list nat)
    (f : fit) :
  let ref_pose := dwprocessor (times255 (squeeze0 ref_image)) in
  let detected := map dwprocessor (driving_frames pose_images) in
  let a := (f_ax f, f_ay f) in
  let b := (f_bx f, f_by f) in
  (forall p h w b1 b2 b3, shape (draw_pose p h w b1 b2 b3) = [3; h; w]%nat) ->
  MimicMotionGetPoses.select_keypoints ref_pose = Ok (I, ref_body) ->
  shape (squeeze0 ref_image) = [H; W; C] ->
  shape pose_images = N :: s ->
  MimicMotionGetPoses.fit_affine lstsq_line I ref_body H W
    (driving_frames pose_images) detected = Ok f ->
  exists l,
    MimicMotionGetPoses.process_locals dwprocessor draw_pose lstsq_line
      ref_image pose_images include_body include_hand include_face = Ok l
    /\ MimicMotionGetPoses.process dwprocessor draw_pose lstsq_line
         ref_image pose_images include_body include_hand include_face
       = Ok (l_output_tensor l)
    /\ l_fit l = f
    /\ length detected = N
    /\ l_detected_poses_np_list l = map (rescale a b) detected
    /\ (forall p,
          candidate (pose_bodies (rescale a b p))
          = map (affine a b) (candidate (pose_bodies p))
          /\ hands (rescale a b p) = map (map (affine a b)) (hands p)
          /\ faces (rescale a b p) = map (map (affine a b)) (faces p))
    /\ (forall x y,
          affine a b (x, y) = (x * f_ax f + f_bx f, y * f_ay f + f_by f))
    /\ shape (l_output_tensor l) = [(1 + N)%nat; H; W; 3%nat]
    /\ (forall h w c,
          at_ (l_output_tensor l) [O; h; w; c]
          = at_ (draw_pose ref_pose H W include_body include_hand include_face)
                [c; h; w] / 255)
    /\ (forall k h w c, (k < N)%nat ->
          at_ (l_output_tensor l) [S k; h; w; c]
          = at_ (draw_pose (rescale a b (nth k detected ref_pose)) H W
                           include_body include_hand include_face)
                [c; h; w] / 255).
Proof.
  intros ref_pose detected a b Hdraw Hsel Href Hpose Hfit.
  assert (HN : length detected = N).
  { unfold detected. rewrite length_map.
    apply (driving_frames_length _ _ _ Hpose). }
  destruct (fit_affine_Ok _ _ _ _ _ _ _ _ Hfit) as [_ [Hne _]].
  assert (Hdet : detected <> []).
  { intros E. apply Hne. fold detected. rewrite E. reflexivity. }
  unfold MimicMotionGetPoses.process, MimicMotionGetPoses.process_locals, fmap.
  fold ref_pose. rewrite Hsel. cbn [bind].
  change (shape (times255 (squeeze0 ref_image)))
    with (shape (squeeze0 ref_image)).
  rewrite Href. cbn [unpack3 bind].
  unfold unbind. change (shape (times255 pose_images)) with (shape pose_images).
  rewrite Hpose. cbn [bind].
  assert (Ed : map (sub_tensor (times255 pose_images)) (seq 0 N)
               = driving_frames pose_images).
  { unfold driving_frames. rewrite Hpose. reflexivity. }
  rewrite Ed. fold detected. rewrite Hfit. cbn [bind].
  unfold MimicMotionGetPoses.render. fold a b.
  set (draw := fun detected_pose : pose =>
                 draw_pose detected_pose H W
                           include_body include_hand include_face).
  set (rescaled := map (rescale a b) detected).
  assert (Hlen : length (map draw rescaled) = N)
    by (unfold rescaled; rewrite !length_map; exact HN).
  destruct (map draw rescaled) as [| t0 ts] eqn:Eout.
  { exfalso. apply Hdet. destruct detected; [reflexivity | discriminate]. }
  rewrite (torch_stack_same_shape [3; H; W]%nat).
  2:{ rewrite <- Eout. apply Forall_forall. intros t Ht.
      apply in_map_iff in Ht as [p [<- _]]. apply Hdraw. }
  rewrite <- Eout in *. clear Eout ts.
  cbn [bind]. unfold torch_cat0.
  cbn [shape unsqueeze0 div255 t_map]. rewrite Hdraw, shape_eqb_refl.
  cbn [bind]. unfold permute. cbn [shape length Nat.eqb bind].
  eexists. split; [reflexivity |].
  cbn [l_output_tensor l_fit l_detected_poses_np_list].
  split; [reflexivity |]. split; [reflexivity |].
  split; [exact HN |]. split; [reflexivity |].
  split; [intros p; repeat split; reflexivity |].
  split; [intros x y; reflexivity |].
  split.
  { cbn [shape map nth]. rewrite Hlen. reflexivity. }
  split.
  { intros h w c. reflexivity. }
  intros k h w c Hk.
  cbn [at_ map seq length axis_pos Nat.eqb nth Nat.ltb Nat.leb Nat.sub].
  rewrite Nat.sub_0_r. cbn [at_ div255 t_map].
  rewrite (nth_indep _ t0 (draw (rescale a b ref_pose)))
    by (rewrite Hlen; exact Hk).
  unfold rescaled. rewrite !map_nth. reflexivity.
Qed.

End GetPosesClaims.

(** ** The sampler *)

Lemma normalized_range (v : Q) : 0 <= v <= 1 -> -1 <= v * 2 - 1 <= 1.
Proof. intros [H0 H1]. split; lra. Qed.

Section SamplerClaims.

Variable pipeline_t : Type.
Variable pipeline_call :
  pipeline_t -> MimicMotionSampler.pipeline_args -> tensor.

(** C5.  On a [Br,Hr,Wr,Cr] reference image and a [B,H,W,C] pose sequence with
    values in [0,1], [process] calls the pipeline with both images moved to
    channel-first layout and mapped by [v * 2 - 1] into [-1,1], with
    [num_frames = B], [tile_size = 16], [tile_overlap = 6] and
    [decode_chunk_size = 8].  It returns the frames of the pipeline as they
    are, moved to [frames,height,width,channel] layout: for a pipeline that
    answers with one batch of [num_frames] frames in [0,1], the output has [B]
    frames in [0,1], none added in front. *)
Theorem sampler_normalizes_and_delegates
    (mimic_pipeline : MimicMotionSampler.mimic_model pipeline_t)
    (ref_image pose_images : tensor) (cfg_min cfg_max : Q) (steps : nat)
    (seed : N) (noise_aug_strength : Q) (fps : nat) (keep_model_loaded : bool)
    (Br Hr Wr Cr B H W C : nat) :
  let pipeline := MimicMotionSampler.mm_pipeline pipeline_t mimic_pipeline in
  shape ref_image = [Br; Hr; Wr; Cr] ->
  shape pose_images = [B; H; W; C] ->
  (forall idx, 0 <= at_ ref_image idx <= 1) ->
  (forall idx, 0 <= at_ pose_images idx <= 1) ->
  (forall args,
     shape (pipeline_call pipeline args)
     = [1%nat; MimicMotionSampler.num_frames args; 3%nat;
        MimicMotionSampler.height args; MimicMotionSampler.width args]) ->
  (forall args idx, 0 <= at_ (pipeline_call pipeline args) idx <= 1) ->
  exists args out,
    MimicMotionSampler.call_args ref_image pose_images cfg_min cfg_max steps
      seed noise_aug_strength fps = Ok args
    /\ shape (MimicMotionSampler.image args) = [Br; Cr; Hr; Wr]
    /\ shape (MimicMotionSampler.image_pose args) = [B; C; H; W]
    /\ (forall b c h w,
          at_ (MimicMotionSampler.image args) [b; c; h; w]
          = at_ ref_image [b; h; w; c] * 2 - 1)
    /\ (forall b c h w,
          at_ (MimicMotionSampler.image_pose args) [b; c; h; w]
          = at_ pose_images [b; h; w; c] * 2 - 1)
    /\ (forall idx, -1 <= at_ (MimicMotionSampler.image args) idx <= 1)
    /\ (forall idx, -1 <= at_ (MimicMotionSampler.image_pose args) idx <= 1)
    /\ MimicMotionSampler.num_frames args = B
    /\ MimicMotionSampler.tile_size args = 16%nat
    /\ MimicMotionSampler.tile_overlap args = 6%nat
    /\ MimicMotionSampler.decode_chunk_size args = 8%nat
    /\ MimicMotionSampler.process pipeline_t pipeline_call mimic_pipeline
         ref_image pose_images cfg_min cfg_max steps seed noise_aug_strength
         fps keep_model_loaded = Ok out
    /\ shape out = [B; H; W; 3%nat]
    /\ (forall n h w c,
          at_ out [n; h; w; c]
          = at_ (pipeline_call pipeline args) [O; n; c; h; w])
    /\ (forall idx, 0 <= at_ out idx <= 1).
Proof.
  intros pipeline Href Hpose Rref Rpose Hshape Hrange.
  unfold MimicMotionSampler.process, MimicMotionSampler.call_args,
    permute, squeeze0.
  fold pipeline. rewrite Href, Hpose.
  cbn [unpack4 bind length Nat.eqb]. rewrite Hshape.
  cbn [shape length Nat.eqb bind].
  eexists. eexists.
  split; [reflexivity |].
  cbn [MimicMotionSampler.image MimicMotionSampler.image_pose
       MimicMotionSampler.num_frames MimicMotionSampler.tile_size
       MimicMotionSampler.tile_overlap MimicMotionSampler.decode_chunk_size].
  split; [reflexivity |]. split; [reflexivity |].
  split; [intros b c h w; reflexivity |].
  split; [intros b c h w; reflexivity |].
  split; [intros idx; apply normalized_range, Rref |].
  split; [intros idx; apply normalized_range, Rpose |].
  split; [reflexivity |]. split; [reflexivity |].
  split; [reflexivity |]. split; [reflexivity |].
  split; [reflexivity |].
  split; [reflexivity |].
  split; [intros n h w c; reflexivity |].
  intros idx. apply Hrange.
Qed.

End SamplerClaims.

(** ** The model loader *)

Lemma append_cancel (p a b : string) :
  String.append p a = String.append p b -> a = b.
Proof.
  induction p as [| ch p IH]; simpl; intros H; [exact H |].
  injection H as H. apply IH; exact H.
Qed.

Lemma append_assoc (a b c : string) :
  String.append (String.append a b) c = String.append a (String.append b c).
Proof.
  induction a as [| ch a IH]; simpl; [reflexivity |].
  rewrite IH. reflexivity.
Qed.

Section LoaderClaims.

Import DownloadAndLoadMimicMotionModel.

Variable models_dir : string.
Variable fs : Type.
Variable path_exists : fs -> string -> bool.
Variable snapshot_download : fs -> string -> string -> string -> fs.
Variable pipeline_t : Type.
Variable MimicMotionPipeline : fs -> string -> string -> torch_dtype -> pipeline_t.

(** C8.  When the stable-video-diffusion directory is absent at the time
    [loadmodel] looks for it, the run ends with the ValueError of line 98,
    raised by the node itself right after that one look-up: the only download
    a run can have made is that of the MimicMotion checkpoint into the
    mimicmotion directory, which is not the directory that is missing, and no
    model has been built. *)
Theorem missing_base_model_fails (precision : precision) (model : string)
    (w : world fs) :
  let model_path := path_join (download_path models_dir) model in
  let found := path_exists (w_fs fs w) model_path in
  let pattern := String.append "*" (String.append model "*") in
  let files :=
    if found then w_fs fs w
    else snapshot_download (w_fs fs w) "Kijai/MimicMotion_pruned" pattern
                           (download_path models_dir) in
  let fetch :=
    if found then []
    else [ev_print (String.append "Downloading model to: " model_path);
          ev_snapshot_download "Kijai/MimicMotion_pruned" pattern
                               (download_path models_dir)] in
  path_exists files (svd_path models_dir) = false ->
  loadmodel models_dir fs path_exists snapshot_download pipeline_t
            MimicMotionPipeline precision model w
  = (Err (svd_missing models_dir),
     World fs files
           (w_trace fs w
            ++ [ev_exists model_path found] ++ fetch
            ++ [ev_print (String.append "Loading model from: " model_path);
                ev_exists (svd_path models_dir) false]))
  /\ exn_from (svd_missing models_dir) = InNode
  /\ exn_class (svd_missing models_dir) = "ValueError"%string
  /\ download_path models_dir <> svd_path models_dir
  /\ model_path <> svd_path models_dir.
Proof.
  intros model_path found pattern files fetch Habsent.
  split.
  - unfold loadmodel, bindM, os_path_exists, emit, hub_snapshot_download,
      raise, ret.
    fold model_path. cbn [w_fs w_trace].
    unfold files, fetch, found, pattern in *. clear files fetch found pattern.
    destruct (path_exists (w_fs fs w) model_path);
      cbn [negb w_fs w_trace] in *; rewrite Habsent;
      cbn [negb]; rewrite <- ?app_assoc; reflexivity.
  - repeat split.
    + unfold download_path, svd_path, path_join. intros E.
      rewrite ?append_assoc in E.
      apply append_cancel in E. discriminate.
    + unfold model_path, download_path, svd_path, path_join. intros E.
      rewrite ?append_assoc in E.
      apply append_cancel in E. discriminate.
Qed.

End LoaderClaims.

(** ** The claims on concrete data *)


Lemma ax_bx_from_ay_witness :
  MimicMotionGetPoses.process_locals Fixture.detector Fixture.renderer
    lstsq_rcond Fixture.ref_image Scenes.three_images true true true
  = Ok Scenes.three_run_locals
  /\ length (detected_bodies (l_fit Scenes.three_run_locals)) = 2%nat
  /\ f_ax (l_fit Scenes.three_run_locals)
     = f_ay (l_fit Scenes.three_run_locals)
       / (of_int 2 / of_int 4 / of_int (l_height Scenes.three_run_locals)
          * of_int (l_width Scenes.three_run_locals))
  /\ f_bx (l_fit Scenes.three_run_locals)
     = Qsum (map (fun p => snd p - fst p * f_ax (l_fit Scenes.three_run_locals))
                 [(100 # 4, 100 # 2); (150 # 4, 150 # 2); (200 # 4, 200 # 2);
                  (100 # 2, 100 # 2); (150 # 2, 150 # 2); (200 # 2, 200 # 2)])
       / of_int 6.
Proof.
  assert (H : MimicMotionGetPoses.process_locals Fixture.detector
                Fixture.renderer lstsq_rcond Fixture.ref_image
                Scenes.three_images true true true
              = Ok Scenes.three_run_locals)
    by (vm_compute; reflexivity).
  split; [exact H |].
  split; [vm_compute; reflexivity |].
  destruct (ax_bx_from_ay _ _ _ _ _ _ _ _ _ H)
    as [fh [fw [c [rest [_ [Hs [_ [Hax [_ Hbx]]]]]]]]].
  injection Hs as <- <- _.
  split; [exact Hax |].
  assert (Epts : correspondences fst (l_ref_body Scenes.three_run_locals)
                   (detected_bodies (l_fit Scenes.three_run_locals))
                 = [(100 # 4, 100 # 2); (150 # 4, 150 # 2); (200 # 4, 200 # 2);
                    (100 # 2, 100 # 2); (150 # 2, 150 # 2); (200 # 2, 200 # 2)])
    by (vm_compute; reflexivity).
  rewrite Epts in Hbx. exact Hbx.
Defined.


Lemma correspondence_set_shared_witness :
  MimicMotionGetPoses.process_locals Fixture.detector Fixture.renderer
    lstsq_rcond Fixture.ref_image Fixture.pose_images true true true
  = Ok Fixture.run_locals
  /\ l_ref_keypoint_id Fixture.run_locals
     = filter (confident (Fixture.detector
                            (times255 (squeeze0 Fixture.ref_image))))
              canonical_keypoint_id
  /\ (length (l_ref_keypoint_id Fixture.run_locals) <= 10)%nat.
Proof.
  assert (H : MimicMotionGetPoses.process_locals Fixture.detector
                Fixture.renderer lstsq_rcond
                Fixture.ref_image Fixture.pose_images
                true true true = Ok Fixture.run_locals)
    by (vm_compute; reflexivity).
  split; [exact H |].
  pose proof (correspondence_set_shared _ _ _ _ _ _ _ _ _ H) as C.
  cbv zeta in C. destruct C as [_ [HI [_ [Hlen _]]]].
  split; [exact HI | exact Hlen].
Defined.

Lemma flags_only_affect_rendering_witness :
  MimicMotionGetPoses.process_locals Fixture.detector Fixture.renderer
    lstsq_rcond Fixture.ref_image Fixture.pose_images true true true
  = Ok Fixture.run_locals
  /\ MimicMotionGetPoses.process_locals Fixture.detector Fixture.renderer
       lstsq_rcond Fixture.ref_image Fixture.pose_images true false false
     = Ok Fixture.run_locals_body_only
  /\ l_ref_keypoint_id Fixture.run_locals
     = l_ref_keypoint_id Fixture.run_locals_body_only
  /\ l_fit Fixture.run_locals = l_fit Fixture.run_locals_body_only
  /\ l_detected_poses_np_list Fixture.run_locals
     = l_detected_poses_np_list Fixture.run_locals_body_only.
Proof.
  assert (H : MimicMotionGetPoses.process_locals Fixture.detector
                Fixture.renderer lstsq_rcond
                Fixture.ref_image Fixture.pose_images
                true true true = Ok Fixture.run_locals)
    by (vm_compute; reflexivity).
  assert (H' : MimicMotionGetPoses.process_locals Fixture.detector
                 Fixture.renderer lstsq_rcond
                 Fixture.ref_image Fixture.pose_images
                 true false false = Ok Fixture.run_locals_body_only)
    by (vm_compute; reflexivity).
  split; [exact H |]. split; [exact H' |].
  destruct (flags_only_affect_rendering _ _ _ _ _ _ _ _ _ _ _ _ _ H H')
    as [_ [HI [_ [Hf Hp]]]].
  split; [exact HI |]. split; [exact Hf | exact Hp].
Defined.

Lemma rescaled_sequence_rendered_witness :
  (forall p h w b1 b2 b3,
     shape (Fixture.renderer p h w b1 b2 b3) = [3; h; w]%nat)
  /\ MimicMotionGetPoses.select_keypoints
       (Fixture.detector (times255 (squeeze0 Fixture.ref_image)))
     = Ok (l_ref_keypoint_id Fixture.run_locals, l_ref_body Fixture.run_locals)
  /\ shape (squeeze0 Fixture.ref_image) = [4; 2; 3]%nat
  /\ shape Fixture.pose_images = 2%nat :: [2; 4; 3]%nat
  /\ MimicMotionGetPoses.fit_affine lstsq_rcond
       (l_ref_keypoint_id Fixture.run_locals) (l_ref_body Fixture.run_locals)
       4 2 (driving_frames Fixture.pose_images)
       (map Fixture.detector (driving_frames Fixture.pose_images))
     = Ok (l_fit Fixture.run_locals)
  /\ exists l,
       MimicMotionGetPoses.process_locals Fixture.detector Fixture.renderer
         lstsq_rcond
         Fixture.ref_image Fixture.pose_images true false true = Ok l
       /\ shape (l_output_tensor l) = [(1 + 2)%nat; 4%nat; 2%nat; 3%nat].
Proof.
  assert (Hdraw : forall p h w b1 b2 b3,
             shape (Fixture.renderer p h w b1 b2 b3) = [3; h; w]%nat)
    by (intros; reflexivity).
  assert (Hsel : MimicMotionGetPoses.select_keypoints
                   (Fixture.detector (times255 (squeeze0 Fixture.ref_image)))
                 = Ok (l_ref_keypoint_id Fixture.run_locals,
                       l_ref_body Fixture.run_locals))
    by (vm_compute; reflexivity).
  assert (Href : shape (squeeze0 Fixture.ref_image) = [4; 2; 3]%nat)
    by reflexivity.
  assert (Hpose : shape Fixture.pose_images = 2%nat :: [2; 4; 3]%nat)
    by reflexivity.
  assert (Hfit : MimicMotionGetPoses.fit_affine lstsq_rcond
                   (l_ref_keypoint_id Fixture.run_locals)
                   (l_ref_body Fixture.run_locals)
                   4 2 (driving_frames Fixture.pose_images)
                   (map Fixture.detector (driving_frames Fixture.pose_images))
                 = Ok (l_fit Fixture.run_locals))
    by (vm_compute; reflexivity).
  repeat (split; [assumption |]).
  destruct (rescaled_sequence_rendered Fixture.detector Fixture.renderer
             lstsq_rcond Fixture.ref_image Fixture.pose_images true false true
              _ _ _ _ _ _ _ _ Hdraw Hsel Href Hpose Hfit)
    as [l [Hl [_ [_ [_ [_ [_ [_ [Hshape _]]]]]]]]].
  exists l. split; [exact Hl | exact Hshape].
Defined.

Lemma no_complete_frame_stops_in_stack_witness :
  MimicMotionGetPoses.select_keypoints
    (Fixture.detector (times255 (squeeze0 Fixture.ref_image)))
  = Ok (l_ref_keypoint_id Fixture.run_locals, l_ref_body Fixture.run_locals)
  /\ shape (squeeze0 Fixture.ref_image) = [4; 2; 3]%nat
  /\ shape Fixture.no_frames = 0%nat :: [2; 4; 3]%nat
  /\ Forall (fun p => complete p = false)
            (map Fixture.detector (driving_frames Fixture.no_frames))
  /\ MimicMotionGetPoses.process Fixture.detector Fixture.renderer lstsq_rcond
       Fixture.ref_image Fixture.no_frames true true true
     = Err (Exn (InNumPy "stack") "ValueError"
                "need at least one array to stack").
Proof.
  assert (Hsel : MimicMotionGetPoses.select_keypoints
                   (Fixture.detector (times255 (squeeze0 Fixture.ref_image)))
                 = Ok (l_ref_keypoint_id Fixture.run_locals,
                       l_ref_body Fixture.run_locals))
    by (vm_compute; reflexivity).
  assert (Href : shape (squeeze0 Fixture.ref_image) = [4; 2; 3]%nat)
    by reflexivity.
  assert (Hpose : shape Fixture.no_frames = 0%nat :: [2; 4; 3]%nat)
    by reflexivity.
  assert (Hnone : Forall (fun p => complete p = false)
                         (map Fixture.detector
                              (driving_frames Fixture.no_frames)))
    by (simpl; constructor).
  repeat (split; [assumption |]).
  exact (no_complete_frame_stops_in_stack Fixture.detector Fixture.renderer
          lstsq_rcond Fixture.ref_image Fixture.no_frames true true true
           _ _ _ _ _ _ _ Hsel Href Hpose Hnone).
Defined.

Lemma reference_without_bodies_witness :
  score (pose_bodies (Fixture.detector
                        (times255 (squeeze0 Fixture.empty_room)))) = []
  /\ MimicMotionGetPoses.select_keypoints
       (Fixture.detector (times255 (squeeze0 Fixture.empty_room)))
     = Ok ([], [])
  /\ MimicMotionGetPoses.process_locals Fixture.detector Fixture.renderer
       lstsq_rcond Fixture.empty_room Fixture.pose_images true true true
     = Err (Exn (InNumPy "polyfit") "TypeError"
                "expected non-empty vector for x").
Proof.
  assert (H : score (pose_bodies (Fixture.detector
                (times255 (squeeze0 Fixture.empty_room)))) = [])
    by (vm_compute; reflexivity).
  split; [exact H |].
  destruct (reference_without_bodies Fixture.detector Fixture.renderer
             lstsq_rcond
              Fixture.empty_room Fixture.pose_images true true true H)
    as [_ [Hsel Hrun]].
  split; [exact Hsel |].
  rewrite (Hrun 4%nat 2%nat 3%nat 2%nat [2; 4; 3]%nat eq_refl eq_refl).
  vm_compute. reflexivity.
Defined.

Lemma sampler_normalizes_and_delegates_witness :
  shape Fixture.sampler_ref_image = [1; 4; 2; 3]%nat
  /\ shape Fixture.sampler_pose_images = [3; 4; 2; 3]%nat
  /\ (forall idx, 0 <= at_ Fixture.sampler_ref_image idx <= 1)
  /\ (forall idx, 0 <= at_ Fixture.sampler_pose_images idx <= 1)
  /\ (forall args,
        shape (Fixture.grey_pipeline tt args)
        = [1%nat; MimicMotionSampler.num_frames args; 3%nat;
           MimicMotionSampler.height args; MimicMotionSampler.width args])
  /\ (forall args idx, 0 <= at_ (Fixture.grey_pipeline tt args) idx <= 1)
  /\ exists out,
       MimicMotionSampler.process unit Fixture.grey_pipeline
         (MimicMotionSampler.MimicModel unit tt float16)
         Fixture.sampler_ref_image Fixture.sampler_pose_images
         2 2 25 0%N 0 15 true = Ok out
       /\ shape out = [3; 4; 2; 3]%nat
       /\ (forall idx, 0 <= at_ out idx <= 1).
Proof.
  assert (Href : shape Fixture.sampler_ref_image = [1; 4; 2; 3]%nat)
    by reflexivity.
  assert (Hpose : shape Fixture.sampler_pose_images = [3; 4; 2; 3]%nat)
    by reflexivity.
  assert (Rref : forall idx, 0 <= at_ Fixture.sampler_ref_image idx <= 1)
    by (intros idx; simpl; lra).
  assert (Rpose : forall idx, 0 <= at_ Fixture.sampler_pose_images idx <= 1)
    by (intros idx; simpl; lra).
  assert (Hshape : forall args,
             shape (Fixture.grey_pipeline tt args)
             = [1%nat; MimicMotionSampler.num_frames args; 3%nat;
                MimicMotionSampler.height args; MimicMotionSampler.width args])
    by (intros args; reflexivity).
  assert (Hrange : forall args idx,
             0 <= at_ (Fixture.grey_pipeline tt args) idx <= 1)
    by (intros args idx; simpl; lra).
  repeat (split; [assumption |]).
  destruct (sampler_normalizes_and_delegates unit Fixture.grey_pipeline
              (MimicMotionSampler.MimicModel unit tt float16)
              Fixture.sampler_ref_image Fixture.sampler_pose_images
              2 2 25 0%N 0 15 true _ _ _ _ _ _ _ _
              Href Hpose Rref Rpose Hshape Hrange)
    as [args [out C]].
  exists out.
  destruct C as [_ [_ [_ [_ [_ [_ [_ [_ [_ [_ [_ [Hrun [Hs [_ Hr]]]]]]]]]]]]]].
  split; [exact Hrun |]. split; [exact Hs | exact Hr].
Defined.

Lemma missing_base_model_fails_witness :
  Fixture.on_disk
    (Fixture.fetch [] "Kijai/MimicMotion_pruned"
       "*MimicMotion-fp16.safetensors*"
       (DownloadAndLoadMimicMotionModel.download_path "models"))
    (DownloadAndLoadMimicMotionModel.svd_path "models") = false
  /\ fst (DownloadAndLoadMimicMotionModel.loadmodel "models" Fixture.disk
            Fixture.on_disk Fixture.fetch unit Fixture.build
            DownloadAndLoadMimicMotionModel.fp16
            "MimicMotion-fp16.safetensors"
            (DownloadAndLoadMimicMotionModel.World Fixture.disk [] []))
     = Err (DownloadAndLoadMimicMotionModel.svd_missing "models").
Proof.
  assert (H : Fixture.on_disk
                (Fixture.fetch [] "Kijai/MimicMotion_pruned"
                   "*MimicMotion-fp16.safetensors*"
                   (DownloadAndLoadMimicMotionModel.download_path "models"))
                (DownloadAndLoadMimicMotionModel.svd_path "models") = false)
    by (vm_compute; reflexivity).
  split; [exact H |].
  destruct (missing_base_model_fails "models" Fixture.disk Fixture.on_disk
              Fixture.fetch unit Fixture.build
              DownloadAndLoadMimicMotionModel.fp16
              "MimicMotion-fp16.safetensors"
              (DownloadAndLoadMimicMotionModel.World Fixture.disk [] []) H)
    as [Hrun _].
  rewrite Hrun. reflexivity.
Defined.

(** ** Where the code departs from the specification *)

(** C4 as the specification has it fails on the empty driving sequence: the
    claim promises an output of [1 + 0] images, the run returns none. *)
Lemma sequence_length_counterexample :
  ~ (exists out,
       MimicMotionGetPoses.process Fixture.detector Fixture.renderer lstsq_rcond
         Fixture.ref_image Fixture.no_frames true true true = Ok out
       /\ hd O (shape out) = (1 + 0)%nat).
Proof.
  intros [out [H _]]. vm_compute in H. discriminate H.
Qed.

(** C7 as the specification has it fails on the empty driving sequence: no
    statement of the node raises; the exception is the ValueError of
    [np.stack], which propagates. *)
Lemma empty_sequence_counterexample :
  MimicMotionGetPoses.process Fixture.detector Fixture.renderer lstsq_rcond
    Fixture.ref_image Fixture.no_frames true true true
  = Err (Exn (InNumPy "stack") "ValueError" "need at least one array to stack")
  /\ ~ (exists e,
          MimicMotionGetPoses.process Fixture.detector Fixture.renderer
            lstsq_rcond
            Fixture.ref_image Fixture.no_frames true true true = Err e
          /\ exn_from e = InNode
          /\ exn_class e = "IncompleteFittingSetError"%string).
Proof.
  assert (H : MimicMotionGetPoses.process Fixture.detector Fixture.renderer
                lstsq_rcond Fixture.ref_image Fixture.no_frames true true true
              = Err (Exn (InNumPy "stack") "ValueError"
                         "need at least one array to stack"))
    by (vm_compute; reflexivity).
  split; [exact H |].
  intros [e [He [Hfrom _]]]. rewrite H in He. injection He as <-.
  discriminate Hfrom.
Qed.



(** * Further properties of the three nodes *)

(** ** The extractor: what a returning run has read *)

Lemma nth_Forall {A : Type} (P : A -> Prop) (l : list A) (d : A) (n : nat) :
  Forall P l -> P d -> P (nth n l d).
Proof.
  intros Hl Hd. destruct (Nat.lt_ge_cases n (length l)) as [Hlt | Hge].
  - rewrite Forall_forall in Hl. apply Hl, nth_In, Hlt.
  - rewrite nth_overflow by exact Hge. exact Hd.
Qed.

Section ExtractorFacts.

Variable dwprocessor : tensor -> pose.
Variable draw_pose : pose -> nat -> nat -> bool -> bool -> bool -> tensor.
Variable lstsq_line : list Q -> list Q -> Q * Q.

(** X2.  A run of [process] that returns has found a reference body, at least
    one canonical landmark with reference confidence above 0.3, and at least
    one driving frame with a complete detection: without any of the three the
    run raises. *)
Theorem returning_run_has_data (ref_image pose_images : tensor)
    (include_body include_hand include_face : bool) (l : locals) :
  MimicMotionGetPoses.process_locals dwprocessor draw_pose lstsq_line
    ref_image pose_images include_body include_hand include_face = Ok l ->
  score (pose_bodies (l_ref_pose l)) <> []
  /\ l_ref_keypoint_id l <> []
  /\ (exists i, In i canonical_keypoint_id /\ confident (l_ref_pose l) i = true)
  /\ (exists p, In p (map dwprocessor (driving_frames pose_images))
                /\ complete p = true)
  /\ (1 <= hd O (shape pose_images))%nat.
Proof.
  intros H.
  destruct (process_locals_Ok _ _ _ _ _ _ _ _ _ H)
    as [Href [Hsel [_ [_ [Hfit _]]]]].
  destruct (select_keypoints_Ok _ _ _ Hsel) as [HI [Hrb _]].
  destruct (fit_affine_Ok _ _ _ _ _ _ _ _ Hfit) as [Hdb [Hne [Hpoly _]]].
  destruct (np_polyfit1_Ok _ _ _ _ Hpoly) as [_ [Hx _]].
  assert (HIne : l_ref_keypoint_id l <> []).
  { intros E. apply Hx. rewrite Hdb, E. apply concat_nils.
    apply Forall_forall. intros x Hin.
    apply in_map_iff in Hin as [y [<- Hy]].
    apply in_map_iff in Hy as [z [<- _]]. reflexivity. }
  assert (Hconf : exists i, In i canonical_keypoint_id
                            /\ confident (l_ref_pose l) i = true).
  { destruct (l_ref_keypoint_id l) as [| i I'] eqn:E; [contradiction |].
    assert (Hin : In i (filter (confident (l_ref_pose l)) canonical_keypoint_id))
      by (rewrite <- HI; left; reflexivity).
    apply filter_In in Hin. exists i. exact Hin. }
  assert (Hp : exists p, In p (map dwprocessor (driving_frames pose_images))
                         /\ complete p = true).
  { destruct (filter complete (map dwprocessor (driving_frames pose_images)))
      as [| p ps] eqn:E; [contradiction |].
    assert (Hin : In p (filter complete
                          (map dwprocessor (driving_frames pose_images))))
      by (rewrite E; left; reflexivity).
    apply filter_In in Hin. exists p. exact Hin. }
  split.
  { destruct Hconf as [i [_ Hc]]. unfold confident in Hc.
    destruct (score (pose_bodies (l_ref_pose l))); [discriminate |].
    discriminate. }
  split; [exact HIne |]. split; [exact Hconf |]. split; [exact Hp |].
  destruct Hp as [p [Hin _]]. unfold driving_frames in Hin.
  destruct (hd O (shape pose_images)); [contradiction | lia].
Qed.


(** X3.  When the first row of the reference score array has fewer than the 18
    canonical entries, the comprehension of lines 240-241 indexes past its end:
    the selection, and the run with it, raises IndexError before any driving
    frame is looked at. *)
Theorem short_score_row_raises (ref_image pose_images : tensor)
    (include_body include_hand include_face : bool)
    (row : list Q) (rest : list (list Q)) :
  let ref_pose := dwprocessor (times255 (squeeze0 ref_image)) in
  score (pose_bodies ref_pose) = row :: rest ->
  (length row < 18)%nat ->
  MimicMotionGetPoses.select_keypoints ref_pose
  = Err (Exn (InNumPy "__getitem__") "IndexError" "index out of bounds")
  /\ MimicMotionGetPoses.process_locals dwprocessor draw_pose lstsq_line
       ref_image pose_images include_body include_hand include_face
     = Err (Exn (InNumPy "__getitem__") "IndexError" "index out of bounds").
Proof.
  intros ref_pose Hscore Hlen.
  assert (Hsel : MimicMotionGetPoses.select_keypoints ref_pose
                 = Err (Exn (InNumPy "__getitem__") "IndexError"
                            "index out of bounds")).
  { unfold MimicMotionGetPoses.select_keypoints,
      MimicMotionGetPoses.keep_keypoint, canonical_keypoint_id.
    rewrite Hscore.
    do 18 (destruct row as [| ? row]; [reflexivity |]).
    simpl in Hlen. lia. }
  split; [exact Hsel |].
  unfold MimicMotionGetPoses.process_locals. fold ref_pose.
  rewrite Hsel. reflexivity.
Qed.

(** X4.  When the renderer draws pixels in 0..255, every value of the output
    tensor of a run that returns lies in [0,1]. *)
Theorem output_in_unit_range (ref_image pose_images : tensor)
    (include_body include_hand include_face : bool) (l : locals) :
  (forall p h w b1 b2 b3 idx,
     0 <= at_ (draw_pose p h w b1 b2 b3) idx <= 255) ->
  MimicMotionGetPoses.process_locals dwprocessor draw_pose lstsq_line
    ref_image pose_images include_body include_hand include_face = Ok l ->
  forall idx, 0 <= at_ (l_output_tensor l) idx <= 1.
Proof.
  intros Hpix H idx.
  destruct (process_locals_Ok _ _ _ _ _ _ _ _ _ H)
    as [_ [_ [_ [_ [_ Hrender]]]]].
  unfold MimicMotionGetPoses.render in Hrender.
  bind_split Hrender as stacked Hstack. bind_split Hrender as cat Hcat.
  bind_split Hrender as perm Hperm. injection Hrender as _ <-.
  unfold permute in Hperm.
  destruct (length (shape cat) =? length [0; 2; 3; 1]%nat)%nat;
    [| discriminate].
  injection Hperm as <-. cbn [at_ length seq map].
  set (j0 := nth _ idx O). set (j1 := nth _ idx O).
  set (j2 := nth _ idx O). set (j3 := nth _ idx O).
  assert (Hdiv : forall v, 0 <= v <= 255 -> 0 <= v / 255 <= 1).
  { intros v [H0 H1]. unfold Qdiv.
    split.
    - apply Qmult_le_0_compat; [exact H0 | discriminate].
    - apply Qle_shift_div_r; [reflexivity | lra]. }
  unfold torch_cat0 in Hcat. cbn [shape unsqueeze0 div255 t_map] in Hcat.
  destruct (shape stacked) as [| n2 s2]; [discriminate |].
  destruct (shape_eqb _ s2); [| discriminate].
  injection Hcat as <-. cbn [at_].
  destruct (j0 <? 1)%nat.
  - cbn [tl]. apply Hdiv, Hpix.
  - unfold torch_stack in Hstack.
    destruct (map _ _) as [| t0 ts] eqn:Eouts; [discriminate |].
    destruct (forallb _ ts); [| discriminate].
    injection Hstack as <-. cbn [at_]. apply Hdiv.
    assert (Hall : Forall (fun t => forall i, 0 <= at_ t i <= 255) (t0 :: ts)).
    { rewrite <- Eouts. apply Forall_forall. intros t Ht.
      apply in_map_iff in Ht as [p [<- _]]. intros i. apply Hpix. }
    apply (nth_Forall (fun t => forall i, 0 <= at_ t i <= 255) _ _ _ Hall).
    inversion Hall; assumption.
Qed.



End ExtractorFacts.

(** ** The extractor: when a run returns *)

Lemma filterM_total {A : Type} (c : A -> result bool) (p : A -> bool)
    (l : list A) :
  Forall (fun x => c x = Ok (p x)) l -> filterM c l = Ok (filter p l).
Proof.
  induction 1 as [| x xs Hx _ IH]; simpl; [reflexivity |].
  rewrite Hx; simpl. rewrite IH; reflexivity.
Qed.

Lemma keep_keypoint_in_row (ref_pose : pose) (row : list Q)
    (rest : list (list Q)) (i : nat) :
  score (pose_bodies ref_pose) = row :: rest -> (i < length row)%nat ->
  MimicMotionGetPoses.keep_keypoint ref_pose i = Ok (confident ref_pose i).
Proof.
  intros Hs Hi. unfold MimicMotionGetPoses.keep_keypoint, confident.
  rewrite Hs. cbn [length Nat.ltb Nat.leb first bind].
  destruct (nth_error row i) as [v |] eqn:E.
  - rewrite (nth_error_nth _ _ 0 E). reflexivity.
  - apply nth_error_None in E. lia.
Qed.

Lemma select_keypoints_total (ref_pose : pose) (row : list Q)
    (rest : list (list Q)) :
  score (pose_bodies ref_pose) = row :: rest ->
  (18 <= length row)%nat ->
  (18 <= length (candidate (pose_bodies ref_pose)))%nat ->
  let I := filter (confident ref_pose) canonical_keypoint_id in
  MimicMotionGetPoses.select_keypoints ref_pose
  = Ok (I, restrict I (candidate (pose_bodies ref_pose))).
Proof.
  intros Hs Hrow Hcand I.
  unfold MimicMotionGetPoses.select_keypoints.
  rewrite (filterM_total _ (confident ref_pose)).
  2:{ apply Forall_forall. intros i Hi.
      apply (keep_keypoint_in_row _ _ _ _ Hs).
      assert (i < 18)%nat; [| lia].
      unfold canonical_keypoint_id in Hi. simpl in Hi.
      repeat (destruct Hi as [<- | Hi]; [lia |]). contradiction. }
  cbn [bind]. fold I.
  rewrite (np_take_total (0, 0)).
  - reflexivity.
  - pose proof (canonical_below_18 (confident ref_pose)) as H18. fold I in H18.
    eapply Forall_impl; [| exact H18]. intros i Hi. cbv beta in *.
    exact (Nat.lt_le_trans _ _ _ Hi Hcand).
Qed.

Lemma pooled_lengths (c : point -> Q) (ref_body : list point)
    (bodies : list (list point)) :
  Forall (fun body => length body = length ref_body) bodies ->
  length (concat (map (map c) bodies))
  = length (np_tile (map c ref_body) (length bodies)).
Proof.
  induction 1 as [| body rest Hb _ IH]; simpl; [reflexivity |].
  rewrite !length_app, IH, !length_map, Hb. reflexivity.
Qed.

Lemma Qsum_squares_nonneg (x : list Q) : 0 <= Qsum (map2 Qmult x x).
Proof.
  induction x as [| a x IH]; cbn [map2].
  - unfold Qsum; simpl. lra.
  - rewrite Qsum_cons. nra.
Qed.

(** Numbers whose squares sum to 0 sum to 0: they are all 0. *)
Lemma Qsum_squares_zero (x : list Q) :
  Qsum (map2 Qmult x x) == 0 -> Qsum x == 0.
Proof.
  induction x as [| a x IH]; cbn [map2]; intros H; [reflexivity |].
  rewrite Qsum_cons in *.
  pose proof (Qsum_squares_nonneg x) as Hx.
  assert (Ha : a * a == 0) by nra.
  apply Qmult_integral in Ha.
  assert (Ha' : a == 0) by (destruct Ha; assumption).
  rewrite Ha', IH; [ring | nra].
Qed.

(** [np.polyfit(x, y, 1)] returns when [y] has the length of [x] and the
    [x_i] do not sum to 0. *)
Lemma np_polyfit1_total (line : list Q -> list Q -> Q * Q) (x y : list Q) :
  length x = length y -> ~ Qsum x == 0 ->
  np_polyfit1 line x y = Ok (line x y).
Proof.
  intros Hlen Hsum. unfold np_polyfit1.
  destruct x as [| x0 x']; [exfalso; apply Hsum; reflexivity |].
  cbn [length Nat.eqb]. rewrite <- Hlen. cbn [length].
  rewrite Nat.eqb_refl. cbn [negb].
  destruct (Qeq_bool (Qsum (map2 Qmult (x0 :: x') (x0 :: x'))) 0) eqn:E;
    [| reflexivity].
  apply Qeq_bool_iff, Qsum_squares_zero in E. contradiction.
Qed.

Lemma of_int_pos_lt (n : nat) : (0 < n)%nat -> ~ of_int n == 0.
Proof. intros H E. apply of_int_zero in E. lia. Qed.

Lemma fit_affine_total (lstsq_line : list Q -> list Q -> Q * Q)
    (I : list nat) (ref_body : list point)
    (height width fh fw c : nat) (img0 : tensor) (rest : list tensor)
    (detected : list pose) :
  Forall (fun i => (i < 18)%nat) I ->
  length ref_body = length I ->
  filter complete detected <> [] ->
  shape img0 = [fh; fw; c] ->
  (0 < height)%nat -> (0 < width)%nat -> (0 < fh)%nat -> (0 < fw)%nat ->
  ~ Qsum (concat (map (fun p => map snd (restrict I (candidate (pose_bodies p))))
                      (filter complete detected))) == 0 ->
  exists f,
    MimicMotionGetPoses.fit_affine lstsq_line I ref_body height width
                                   (img0 :: rest)
                                   detected = Ok f.
Proof.
  intros HI Hrb Hne Hshape Hh Hw Hfh Hfw Hsum.
  unfold MimicMotionGetPoses.fit_affine.
  change (fun p : pose => (length (candidate (pose_bodies p)) =? 18)%nat)
    with complete.
  set (fitting := filter complete detected) in *.
  assert (H18 : Forall (fun a => length a = 18%nat)
                       (map (fun p => candidate (pose_bodies p)) fitting)).
  { apply Forall_forall. intros a Ha.
    apply in_map_iff in Ha as [p [<- Hp]].
    apply filter_In in Hp as [_ Hp]. apply Nat.eqb_eq. exact Hp. }
  rewrite (np_stack_same_length 18 _ H18)
    by (intros E; apply map_eq_nil in E; contradiction).
  cbn [bind].
  rewrite (mapM_total _ (restrict I)).
  2:{ rewrite Forall_forall in H18. apply Forall_forall. intros a Ha.
      apply np_take_total. rewrite (H18 a Ha). exact HI. }
  cbn [bind].
  match goal with
  | |- context [np_polyfit1 lstsq_line (concat (map (map snd) ?B)) _] =>
      set (bodies := B) in *
  end.
  assert (Hall : Forall (fun body => length body = length ref_body) bodies).
  { apply Forall_forall. intros body Hb.
    apply in_map_iff in Hb as [p [<- _]]. rewrite restrict_length. lia. }
  assert (Hx : concat (map (map snd) bodies)
               = concat (map (fun p => map snd (restrict I (candidate (pose_bodies p))))
                             fitting))
    by (unfold bodies; rewrite !map_map; reflexivity).
  match goal with
  | |- context [np_polyfit1 lstsq_line ?x ?y] =>
      rewrite (np_polyfit1_total lstsq_line x y);
        [| exact (pooled_lengths snd _ _ Hall)
         | intros E; apply Hsum; rewrite <- Hx; exact E]
  end.
  destruct (lstsq_line _ _) as [ay by'].
  cbn [bind first]. rewrite Hshape. cbn [unpack3 bind].
  unfold py_truediv, np_truediv.
  pose proof (of_int_pos_lt _ Hh) as Qh. pose proof (of_int_pos_lt _ Hw) as Qw.
  pose proof (of_int_pos_lt _ Hfh) as Qfh.
  pose proof (of_int_pos_lt _ Hfw) as Qfw.
  destruct (Qeq_bool (of_int fw) 0) eqn:E1;
    [apply Qeq_bool_iff in E1; contradiction |].
  cbn [bind].
  destruct (Qeq_bool (of_int height) 0) eqn:E2;
    [apply Qeq_bool_iff in E2; contradiction |].
  cbn [bind].
  destruct (Qeq_bool (of_int fh / of_int fw / of_int height * of_int width) 0)
    eqn:E3.
  { apply Qeq_bool_iff in E3. exfalso.
    assert (E : of_int fh * of_int width == 0).
    { transitivity (of_int fh / of_int fw / of_int height * of_int width
                    * (of_int fw * of_int height));
        [field; split; assumption | rewrite E3; ring]. }
    apply Qmult_integral in E. tauto. }
  cbn [bind]. unfold np_mean_r.
  assert (Hlen0 : length (concat (map (map snd) bodies)) <> 0%nat).
  { intros E. apply length_zero_iff_nil in E. rewrite Hx in E.
    apply Hsum. rewrite E. reflexivity. }
  match goal with
  | |- context [Nat.eqb (length ?m) 0] =>
      assert (Em : length m = length (concat (map (map snd) bodies)))
  end.
  { rewrite map2_length.
    - rewrite np_tile_length, length_map. symmetry.
      etransitivity; [exact (pooled_lengths snd _ _ Hall) |].
      rewrite np_tile_length, length_map. reflexivity.
    - rewrite length_map.
      exact (eq_sym (pooled_lengths fst _ _ Hall)). }
  rewrite Em.
  destruct (length (concat (map (map snd) bodies)) =? 0)%nat eqn:E4;
    [apply Nat.eqb_eq in E4; contradiction |].
  cbn [bind]. eexists. reflexivity.
Qed.

Section ExtractorRuns.

Variable dwprocessor : tensor -> pose.
Variable draw_pose : pose -> nat -> nat -> bool -> bool -> bool -> tensor.
Variable lstsq_line : list Q -> list Q -> Q * Q.

Lemma render_total (ref_pose : pose) (height width : nat) (f : fit)
    (detected : list pose) (include_body include_hand include_face : bool) :
  (forall p h w b1 b2 b3, shape (draw_pose p h w b1 b2 b3) = [3; h; w]%nat) ->
  detected <> [] ->
  exists out,
    MimicMotionGetPoses.render draw_pose ref_pose height width f detected
      include_body include_hand include_face
    = Ok (map (rescale (f_ax f, f_ay f) (f_bx f, f_by f)) detected, out)
    /\ shape out = [(1 + length detected)%nat; height; width; 3%nat].
Proof.
  intros Hdraw Hne. unfold MimicMotionGetPoses.render.
  set (draw := fun detected_pose : pose =>
                 draw_pose detected_pose height width
                           include_body include_hand include_face).
  set (rescaled := map (rescale (f_ax f, f_ay f) (f_bx f, f_by f)) detected).
  assert (Hlen : length (map draw rescaled) = length detected)
    by (unfold rescaled; rewrite !length_map; reflexivity).
  destruct (map draw rescaled) as [| t0 ts] eqn:Eout.
  { exfalso. apply Hne. destruct detected; [reflexivity | discriminate]. }
  rewrite (torch_stack_same_shape [3; height; width]%nat).
  2:{ rewrite <- Eout. apply Forall_forall. intros t Ht.
      apply in_map_iff in Ht as [p [<- _]]. apply Hdraw. }
  cbn [bind]. unfold torch_cat0.
  cbn [shape unsqueeze0 div255 t_map]. rewrite Hdraw, shape_eqb_refl.
  cbn [bind]. unfold permute. cbn [shape length Nat.eqb bind].
  eexists. split; [reflexivity |].
  cbn [shape map nth]. simpl length in Hlen. rewrite Hlen. reflexivity.
Qed.

(** X7.  A run of [process] returns, with [1 + N] output images of the
    reference height and width, whenever: the renderer returns
    [3,height,width] images; no image dimension is 0; the reference detection
    has a score row and a candidate array of at least 18 entries; some
    canonical landmark has reference confidence above 0.3; some driving frame
    has a complete detection; and the pooled driving y-coordinates of the
    fitting set do not sum to 0. *)
Theorem process_returns (ref_image pose_images : tensor)
    (include_body include_hand include_face : bool)
    (H W C N fh fw c i0 : nat) (row : list Q) (rest : list (list Q))
    (p0 : pose) :
  let ref_pose := dwprocessor (times255 (squeeze0 ref_image)) in
  let detected := map dwprocessor (driving_frames pose_images) in
  let I := filter (confident ref_pose) canonical_keypoint_id in
  (forall p h w b1 b2 b3, shape (draw_pose p h w b1 b2 b3) = [3; h; w]%nat) ->
  shape (squeeze0 ref_image) = [H; W; C] ->
  shape pose_images = [N; fh; fw; c] ->
  (0 < H)%nat -> (0 < W)%nat -> (0 < fh)%nat -> (0 < fw)%nat ->
  score (pose_bodies ref_pose) = row :: rest ->
  (18 <= length row)%nat ->
  (18 <= length (candidate (pose_bodies ref_pose)))%nat ->
  In i0 canonical_keypoint_id -> confident ref_pose i0 = true ->
  In p0 detected -> complete p0 = true ->
  ~ Qsum (concat (map (fun p => map snd (restrict I (candidate (pose_bodies p))))
                      (filter complete detected))) == 0 ->
  exists l,
    MimicMotionGetPoses.process_locals dwprocessor draw_pose lstsq_line
      ref_image pose_images include_body include_hand include_face = Ok l
    /\ l_ref_keypoint_id l = I
    /\ l_detected_poses_np_list l
       = map (rescale (f_ax (l_fit l), f_ay (l_fit l))
                      (f_bx (l_fit l), f_by (l_fit l))) detected
    /\ shape (l_output_tensor l) = [(1 + N)%nat; H; W; 3%nat].
Proof.
  intros ref_pose detected I Hdraw Href Hpose HH HW Hfh Hfw Hscore Hrow Hcand
         Hi0 Hconf Hp0 Hcomp Hsum.
  assert (Hfitting : filter complete detected <> []).
  { intros E. assert (Hin : In p0 (filter complete detected))
      by (apply filter_In; split; assumption).
    rewrite E in Hin. contradiction. }
  assert (HN : length detected = N).
  { unfold detected. rewrite length_map.
    apply (driving_frames_length _ _ _ Hpose). }
  assert (Hdet : detected <> [])
    by (intros E; rewrite E in Hp0; contradiction).
  assert (Himgs : driving_frames pose_images
                  = sub_tensor (times255 pose_images) 0
                    :: tl (driving_frames pose_images)).
  { unfold detected in Hdet. destruct (driving_frames pose_images) as [| i r] eqn:E;
      [contradiction |].
    unfold driving_frames in E. rewrite Hpose in E. cbn [hd] in E.
    destruct N; [discriminate |]. simpl in E. injection E as <- _.
    reflexivity. }
  pose proof (select_keypoints_total ref_pose row rest Hscore Hrow Hcand) as Hsel.
  cbv zeta in Hsel. fold I in Hsel.
  destruct (fit_affine_total lstsq_line I
              (restrict I (candidate (pose_bodies ref_pose)))
              H W fh fw c (sub_tensor (times255 pose_images) 0)
              (tl (driving_frames pose_images)) detected)
    as [f Hfit]; try assumption.
  { apply canonical_below_18. }
  { apply restrict_length. }
  { cbn [sub_tensor shape times255 t_map]. rewrite Hpose. reflexivity. }
  rewrite <- Himgs in Hfit.
  destruct (render_total ref_pose H W f detected
              include_body include_hand include_face Hdraw Hdet)
    as [out [Hrender Hshape]].
  unfold MimicMotionGetPoses.process_locals.
  fold ref_pose. rewrite Hsel. cbn [bind].
  change (shape (times255 (squeeze0 ref_image)))
    with (shape (squeeze0 ref_image)).
  rewrite Href. cbn [unpack3 bind].
  unfold unbind. change (shape (times255 pose_images)) with (shape pose_images).
  rewrite Hpose. cbn [bind].
  assert (Ed : map (sub_tensor (times255 pose_images)) (seq 0 N)
               = driving_frames pose_images).
  { unfold driving_frames. rewrite Hpose. reflexivity. }
  rewrite Ed. fold detected. rewrite Hfit. cbn [bind].
  rewrite Hrender. cbn [bind].
  eexists. split; [reflexivity |].
  cbn [l_ref_keypoint_id l_detected_poses_np_list l_fit l_output_tensor].
  split; [reflexivity |]. split; [reflexivity |].
  rewrite Hshape, HN. reflexivity.
Qed.

End ExtractorRuns.

(** ** The sampler: the rank of its inputs *)

Lemma unpack4_Err (s : list nat) :
  length s <> 4%nat ->
  unpack4 s = Err (Exn InPython "ValueError"
                       "wrong number of values to unpack (expected 4)").
Proof.
  intros H. destruct s as [| a [| b [| c [| d [| e s]]]]]; try reflexivity.
  exfalso. apply H. reflexivity.
Qed.

Section SamplerFacts.

Variable pipeline_t : Type.
Variable pipeline_call :
  pipeline_t -> MimicMotionSampler.pipeline_args -> tensor.

(** X8.  The sampler takes 4-dimensional inputs only: a pose sequence of
    another rank stops it with the ValueError of the unpacking of line 153, and
    with a 4-dimensional pose sequence a reference image of another rank stops
    it with the RuntimeError of [permute]; the pipeline has no part in
    either. *)
Theorem sampler_needs_4d_inputs
    (mimic_pipeline : MimicMotionSampler.mimic_model pipeline_t)
    (ref_image pose_images : tensor) (cfg_min cfg_max : Q) (steps : nat)
    (seed : N) (noise_aug_strength : Q) (fps : nat) (keep_model_loaded : bool) :
  length (shape pose_images) <> 4%nat \/ length (shape ref_image) <> 4%nat ->
  MimicMotionSampler.process pipeline_t pipeline_call mimic_pipeline
    ref_image pose_images cfg_min cfg_max steps seed noise_aug_strength
    fps keep_model_loaded
  = if (length (shape pose_images) =? 4)%nat
    then Err (Exn (InTorch "permute") "RuntimeError"
                  "number of dimensions in the tensor input does not match the length of the desired ordering")
    else Err (Exn InPython "ValueError"
                  "wrong number of values to unpack (expected 4)").
Proof.
  intros H.
  unfold MimicMotionSampler.process, MimicMotionSampler.call_args.
  destruct (length (shape pose_images) =? 4)%nat eqn:Ep.
  - apply Nat.eqb_eq in Ep.
    destruct H as [H | H]; [contradiction |].
    destruct (shape pose_images) as [| a [| b [| c [| d [| e s]]]]];
      try discriminate Ep.
    cbn [unpack4 bind]. unfold permute at 1.
    destruct (length (shape ref_image) =? length [0; 3; 1; 2]%nat)%nat eqn:Er;
      [apply Nat.eqb_eq in Er; contradiction |].
    reflexivity.
  - apply Nat.eqb_neq in Ep. rewrite (unpack4_Err _ Ep). reflexivity.
Qed.

End SamplerFacts.

(** ** From the extractor to the sampler *)

Section ExtractorToSampler.

Variable dwprocessor : tensor -> pose.
Variable draw_pose : pose -> nat -> nat -> bool -> bool -> bool -> tensor.
Variable lstsq_line : list Q -> list Q -> Q * Q.

(** X10.  The output of the extractor is what the sampler takes as
    [pose_images]: on the [1 + N] images of a run on [N] driving frames, the
    sampler asks its pipeline for [num_frames = 1 + N] frames of the reference
    height and width, the rendering of the reference pose counting as the
    first frame. *)
Theorem sampler_counts_reference_frame (ref_image pose_images : tensor)
    (include_body include_hand include_face : bool) (l : locals)
    (H W C N : nat) (s : list nat)
    (cfg_min cfg_max : Q) (steps : nat) (seed : BinNums.N) (noise_aug_strength : Q)
    (fps : nat) :
  (forall p h w b1 b2 b3, shape (draw_pose p h w b1 b2 b3) = [3; h; w]%nat) ->
  shape ref_image = [1%nat; H; W; C] ->
  shape pose_images = N :: s ->
  MimicMotionGetPoses.process_locals dwprocessor draw_pose lstsq_line
    ref_image pose_images include_body include_hand include_face = Ok l ->
  exists args,
    MimicMotionSampler.call_args ref_image (l_output_tensor l)
      cfg_min cfg_max steps seed noise_aug_strength fps = Ok args
    /\ MimicMotionSampler.num_frames args = (1 + N)%nat
    /\ MimicMotionSampler.height args = H
    /\ MimicMotionSampler.width args = W
    /\ shape (MimicMotionSampler.image_pose args) = [(1 + N)%nat; 3%nat; H; W].
Proof.
  intros Hdraw Href Hpose Hrun.
  destruct (process_locals_Ok _ _ _ _ _ _ _ _ _ Hrun)
    as [_ [_ [[c Hshape] [_ [Hfit Hrender]]]]].
  destruct (fit_affine_Ok _ _ _ _ _ _ _ _ Hfit) as [_ [Hne _]].
  assert (Hdet : map dwprocessor (driving_frames pose_images) <> []).
  { intros E. apply Hne. rewrite E. reflexivity. }
  destruct (render_total draw_pose (l_ref_pose l) (l_height l) (l_width l)
              (l_fit l) _ include_body include_hand include_face Hdraw Hdet)
    as [out [Hrender' Hout]].
  rewrite Hrender' in Hrender. injection Hrender as _ <-.
  rewrite length_map, (driving_frames_length _ _ _ Hpose) in Hout.
  change (shape (times255 (squeeze0 ref_image)))
    with (shape (squeeze0 ref_image)) in Hshape.
  unfold squeeze0 in Hshape. rewrite Href in Hshape. cbn [shape] in Hshape.
  injection Hshape as Eh Ew _. rewrite <- Eh, <- Ew in Hout.
  unfold MimicMotionSampler.call_args, permute.
  rewrite Hout, Href. cbn [unpack4 bind length Nat.eqb].
  eexists. split; [reflexivity |].
  cbn [MimicMotionSampler.num_frames MimicMotionSampler.height
       MimicMotionSampler.width MimicMotionSampler.image_pose
       shape t_map map nth].
  repeat split; reflexivity.
Qed.

End ExtractorToSampler.

(** ** The further properties on concrete data *)

Lemma returning_run_has_data_witness :
  MimicMotionGetPoses.process_locals Fixture.detector Fixture.renderer
    lstsq_rcond Fixture.ref_image Fixture.pose_images true true true
  = Ok Fixture.run_locals
  /\ l_ref_keypoint_id Fixture.run_locals <> []
  /\ (1 <= hd O (shape Fixture.pose_images))%nat.
Proof.
  assert (H : MimicMotionGetPoses.process_locals Fixture.detector
                Fixture.renderer lstsq_rcond
                Fixture.ref_image Fixture.pose_images
                true true true = Ok Fixture.run_locals)
    by (vm_compute; reflexivity).
  split; [exact H |].
  destruct (returning_run_has_data _ _ _ _ _ _ _ _ _ H)
    as [_ [HI [_ [_ HN]]]].
  split; [exact HI | exact HN].
Defined.

Lemma short_score_row_raises_witness :
  score (pose_bodies (Scenes.detector (times255 (squeeze0 Scenes.blurred))))
  = [9 # 10; 9 # 10] :: []
  /\ (length [9 # 10; 9 # 10] < 18)%nat
  /\ MimicMotionGetPoses.process_locals Scenes.detector Fixture.renderer
       lstsq_rcond Scenes.blurred Fixture.pose_images true true true
     = Err (Exn (InNumPy "__getitem__") "IndexError" "index out of bounds").
Proof.
  assert (H : score (pose_bodies (Scenes.detector
                (times255 (squeeze0 Scenes.blurred))))
              = [9 # 10; 9 # 10] :: [])
    by (vm_compute; reflexivity).
  assert (Hlen : (length [9 # 10; 9 # 10] < 18)%nat) by (simpl; lia).
  split; [exact H |]. split; [exact Hlen |].
  exact (proj2 (short_score_row_raises Scenes.detector Fixture.renderer
                 lstsq_rcond Scenes.blurred Fixture.pose_images true true true
                  _ _ H Hlen)).
Defined.

Lemma output_in_unit_range_witness :
  (forall p h w b1 b2 b3 idx,
     0 <= at_ (Scenes.grey_renderer p h w b1 b2 b3) idx <= 255)
  /\ MimicMotionGetPoses.process_locals Fixture.detector Scenes.grey_renderer
       lstsq_rcond Fixture.ref_image Fixture.pose_images true true true
     = Ok Scenes.grey_run_locals
  /\ forall idx, 0 <= at_ (l_output_tensor Scenes.grey_run_locals) idx <= 1.
Proof.
  assert (Hpix : forall p h w b1 b2 b3 idx,
             0 <= at_ (Scenes.grey_renderer p h w b1 b2 b3) idx <= 255)
    by (intros; simpl; lra).
  assert (H : MimicMotionGetPoses.process_locals Fixture.detector
                Scenes.grey_renderer lstsq_rcond
                Fixture.ref_image Fixture.pose_images
                true true true = Ok Scenes.grey_run_locals)
    by (vm_compute; reflexivity).
  split; [exact Hpix |]. split; [exact H |].
  exact (output_in_unit_range _ _ _ _ _ _ _ _ _ Hpix H).
Defined.

Lemma process_returns_witness :
  (forall p h w b1 b2 b3,
     shape (Fixture.renderer p h w b1 b2 b3) = [3; h; w]%nat)
  /\ shape (squeeze0 Fixture.ref_image) = [4; 2; 3]%nat
  /\ shape Fixture.pose_images = [2; 2; 4; 3]%nat
  /\ (0 < 4)%nat /\ (0 < 2)%nat
  /\ score (pose_bodies (Fixture.detector
                           (times255 (squeeze0 Fixture.ref_image))))
     = Fixture.ref_score :: []
  /\ (18 <= length Fixture.ref_score)%nat
  /\ (18 <= length (candidate (pose_bodies
                      (Fixture.detector
                         (times255 (squeeze0 Fixture.ref_image))))))%nat
  /\ In 0%nat canonical_keypoint_id
  /\ confident (Fixture.detector (times255 (squeeze0 Fixture.ref_image))) 0
     = true
  /\ In Fixture.half_pose
        (map Fixture.detector (driving_frames Fixture.pose_images))
  /\ complete Fixture.half_pose = true
  /\ ~ Qsum (concat
               (map (fun p =>
                       map snd
                         (restrict
                            (filter (confident
                                       (Fixture.detector
                                          (times255
                                             (squeeze0 Fixture.ref_image))))
                                    canonical_keypoint_id)
                            (candidate (pose_bodies p))))
                    (filter complete
                       (map Fixture.detector
                            (driving_frames Fixture.pose_images))))) == 0
  /\ exists l,
       MimicMotionGetPoses.process_locals Fixture.detector Fixture.renderer
         lstsq_rcond
         Fixture.ref_image Fixture.pose_images false true false = Ok l
       /\ shape (l_output_tensor l) = [(1 + 2)%nat; 4%nat; 2%nat; 3%nat].
Proof.
  assert (Hdraw : forall p h w b1 b2 b3,
             shape (Fixture.renderer p h w b1 b2 b3) = [3; h; w]%nat)
    by (intros; reflexivity).
  assert (Href : shape (squeeze0 Fixture.ref_image) = [4; 2; 3]%nat)
    by reflexivity.
  assert (Hpose : shape Fixture.pose_images = [2; 2; 4; 3]%nat) by reflexivity.
  assert (H4 : (0 < 4)%nat) by lia.
  assert (H2 : (0 < 2)%nat) by lia.
  assert (Hscore : score (pose_bodies (Fixture.detector
                     (times255 (squeeze0 Fixture.ref_image))))
                   = Fixture.ref_score :: []) by (vm_compute; reflexivity).
  assert (Hrow : (18 <= length Fixture.ref_score)%nat) by (simpl; lia).
  assert (Hcand : (18 <= length (candidate (pose_bodies
                     (Fixture.detector
                        (times255 (squeeze0 Fixture.ref_image))))))%nat)
    by (vm_compute; lia).
  assert (Hi0 : In 0%nat canonical_keypoint_id) by (left; reflexivity).
  assert (Hconf : confident (Fixture.detector
                    (times255 (squeeze0 Fixture.ref_image))) 0 = true)
    by (vm_compute; reflexivity).
  assert (Hp0 : In Fixture.half_pose
                   (map Fixture.detector (driving_frames Fixture.pose_images)))
    by (vm_compute; left; reflexivity).
  assert (Hcomp : complete Fixture.half_pose = true) by reflexivity.
  assert (Hsum : ~ Qsum (concat
               (map (fun p =>
                       map snd
                         (restrict
                            (filter (confident
                                       (Fixture.detector
                                          (times255
                                             (squeeze0 Fixture.ref_image))))
                                    canonical_keypoint_id)
                            (candidate (pose_bodies p))))
                    (filter complete
                       (map Fixture.detector
                            (driving_frames Fixture.pose_images))))) == 0)
    by (vm_compute; discriminate).
  repeat (split; [assumption |]).
  destruct (process_returns Fixture.detector Fixture.renderer lstsq_rcond
              Fixture.ref_image Fixture.pose_images false true false
              4 2 3 2 2 4 3 0 Fixture.ref_score [] Fixture.half_pose
              Hdraw Href Hpose H4 H2 H2 H4 Hscore Hrow Hcand Hi0 Hconf
              Hp0 Hcomp Hsum)
    as [l [Hl [_ [_ Hs]]]].
  exists l. split; [exact Hl | exact Hs].
Defined.

Lemma sampler_needs_4d_inputs_witness :
  (length (shape (sub_tensor Fixture.sampler_pose_images 0)) <> 4%nat
   \/ length (shape Fixture.sampler_ref_image) <> 4%nat)
  /\ MimicMotionSampler.process unit Fixture.grey_pipeline
       (MimicMotionSampler.MimicModel unit tt float16)
       Fixture.sampler_ref_image (sub_tensor Fixture.sampler_pose_images 0)
       2 2 25 0%N 0 15 true
     = Err (Exn InPython "ValueError"
                "wrong number of values to unpack (expected 4)").
Proof.
  assert (H : length (shape (sub_tensor Fixture.sampler_pose_images 0))
              <> 4%nat
              \/ length (shape Fixture.sampler_ref_image) <> 4%nat)
    by (left; simpl; lia).
  split; [exact H |].
  exact (sampler_needs_4d_inputs unit Fixture.grey_pipeline
           (MimicMotionSampler.MimicModel unit tt float16)
           Fixture.sampler_ref_image (sub_tensor Fixture.sampler_pose_images 0)
           2 2 25 0%N 0 15 true H).
Defined.

Lemma sampler_counts_reference_frame_witness :
  (forall p h w b1 b2 b3,
     shape (Fixture.renderer p h w b1 b2 b3) = [3; h; w]%nat)
  /\ shape Fixture.ref_image = [1; 4; 2; 3]%nat
  /\ shape Fixture.pose_images = 2%nat :: [2; 4; 3]%nat
  /\ MimicMotionGetPoses.process_locals Fixture.detector Fixture.renderer
       lstsq_rcond Fixture.ref_image Fixture.pose_images true true true
     = Ok Fixture.run_locals
  /\ exists args,
       MimicMotionSampler.call_args Fixture.ref_image
         (l_output_tensor Fixture.run_locals) 2 2 25 0%N 0 15 = Ok args
       /\ MimicMotionSampler.num_frames args = (1 + 2)%nat.
Proof.
  assert (Hdraw : forall p h w b1 b2 b3,
             shape (Fixture.renderer p h w b1 b2 b3) = [3; h; w]%nat)
    by (intros; reflexivity).
  assert (Href : shape Fixture.ref_image = [1; 4; 2; 3]%nat) by reflexivity.
  assert (Hpose : shape Fixture.pose_images = 2%nat :: [2; 4; 3]%nat)
    by reflexivity.
  assert (H : MimicMotionGetPoses.process_locals Fixture.detector
                Fixture.renderer lstsq_rcond
                Fixture.ref_image Fixture.pose_images
                true true true = Ok Fixture.run_locals)
    by (vm_compute; reflexivity).
  repeat (split; [assumption |]).
  destruct (sampler_counts_reference_frame Fixture.detector Fixture.renderer
             lstsq_rcond Fixture.ref_image Fixture.pose_images true true true
              Fixture.run_locals 4 2 3 2 [2; 4; 3]%nat 2 2 25 0%N 0 15
              Hdraw Href Hpose H)
    as [args [Hargs [Hn _]]].
  exists args. split; [exact Hargs | exact Hn].
Defined.
